(** * Budget App (budget.py): a shallow embedding and its properties

    The script is a Streamlit page program over two CSV tables,
    [budget.csv] and [expenses.csv].  It is embedded here as follows.

    - Currency amounts are Python floats in the script; they are taken as
      exact rationals ([Q]), compared with [==].  Presentation rounding
      ([round(x, 2)], format strings) is left out: a widget carries the
      exact value it is handed.  Some statements are made for amounts
      in whole dollars that binary64 adds without rounding
      ([adds_exactly]): there the floats of the script and the
      rationals agree.
    - A pandas DataFrame is a list of column names with a list of rows; the
      rows of the two tables are records whose fields are the columns of the
      table.  The files of the model are therefore tables under the
      canonical columns, with cells of the types the script writes: a file
      that pandas reads under other columns, or with cells of other types,
      is outside the model, and so is what the script does with it.
    - [to_csv] followed by [read_csv] gives back the rows that were
      written, in their order, a number as the same number; a text cell
      that is empty, [None] or one of pandas' markers of a missing value
      comes back as NaN.
    - The script runs top to bottom against the file system and the screen;
      this is a state-and-exception monad [App] over a [world].  Effects
      made before an exception is raised stay, as in Python.
    - Python names live in a namespace (a finite map from names to values);
      reading a name that was never assigned raises [NameError]. *)

From Stdlib Require Import ZArith QArith Qminmax Qabs List String Ascii.
From Stdlib Require Import Sorted Permutation Lia Lqa OrderedTypeEx.
From stdpp Require Import base gmap strings.
Import ListNotations.

Local Open Scope string_scope.

(** ** Python exceptions and outcomes *)

Module Py.

Inductive exn : Type :=
| NameError (name : string)
| KeyError
| IndexError
| ValueError
| TypeError
| FileNotFoundError
| ParserError.

(** [except KeyError], [except FileNotFoundError]: the named class only.
    [except Exception] and a bare [except] take every exception here. *)
Definition is_KeyError (x : exn) : bool :=
  match x with KeyError => true | _ => false end.

Definition is_FileNotFoundError (x : exn) : bool :=
  match x with FileNotFoundError => true | _ => false end.

Definition any_exception (x : exn) : bool := true.

Inductive outcome (A : Type) : Type :=
| Ok (a : A)
| Raise (x : exn).

Arguments Ok {A} a.
Arguments Raise {A} x.

(** Dates as [st.date_input] returns them. *)
Record date : Type := { year : nat; month : nat; day : nat }.

Definition digit (n : nat) : ascii := ascii_of_nat (48 + n mod 10).

(** [curr_date.strftime("%m/%Y")]: two digits, a slash, four digits
    (the widget only offers years of four digits). *)
Definition strftime_m_Y (d : date) : string :=
  String (digit (month d / 10)) (String (digit (month d))
    (String "/" (String (digit (year d / 1000)) (String (digit (year d / 100))
      (String (digit (year d / 10)) (String (digit (year d)) EmptyString)))))).

(** Values a name can be bound to.  Modules, functions and frames are
    opaque objects: only their being bound matters. *)
Inductive value : Type :=
| VStr (s : string)
| VNum (q : Q)
| VBool (b : bool)
| VNone
| VObj.

End Py.
Import Py.

(** ** Tables *)

Module Expense.

(** A cell of a text column that may be empty: a text, Python's [None]
    (what [st.pills] returns when nothing is chosen), or the missing
    value NaN that [read_csv] gives for an empty cell. *)
Inductive cell : Type :=
| Text (s : string)
| PyNone
| Missing.

(** A row of [expenses.csv]. [Planned_Unplanned] is what [st.pills]
    returned, [Description] what [st.text_input] returned, or what
    [read_csv] made of them. *)
Record row : Type := {
  Month : string;
  Amount : Q;
  Category : string;
  Planned_Unplanned : cell;
  Description : cell
}.

Definition columns : list string :=
  ["Month"; "Amount"; "Category"; "Planned_Unplanned"; "Description"].

(** The texts that [read_csv] takes for a missing value (the default
    [na_values] of pandas 2), the empty text first. *)
Definition na_values : list string :=
  [EmptyString; "#N/A"; "#N/A N/A"; "#NA"; "-1.#IND"; "-1.#QNAN"; "-NaN";
   "-nan"; "1.#IND"; "1.#QNAN"; "<NA>"; "N/A"; "NA"; "NULL"; "NaN"; "None";
   "n/a"; "nan"; "null"].

Definition is_na (s : string) : bool := existsb (String.eqb s) na_values.

(** A cell after [to_csv] and [read_csv]: [None] and NaN are written as
    the empty text, and the empty text and the other markers are read as
    NaN. *)
Definition read_back (c : cell) : cell :=
  match c with
  | Text s => if is_na s then Missing else Text s
  | PyNone => Missing
  | Missing => Missing
  end.

(** A row after [to_csv] and [read_csv]. *)
Definition as_read (r : row) : row :=
  {| Month := Month r;
     Amount := Amount r;
     Category := Category r;
     Planned_Unplanned := read_back (Planned_Unplanned r);
     Description := read_back (Description r) |}.

End Expense.

Module Budget.

(** A row of [budget.csv]. *)
Record row : Type := {
  Month : string;
  Paycheck : Q;
  saving1 : Q;
  saving2 : Q;
  STS : Q;
  Total_Saved : Q;
  Fixed_Expenses : Q;
  Misc_Budget : Q
}.

Definition columns : list string :=
  ["Month"; "Paycheck"; "saving1"; "saving2"; "STS"; "Total_Saved";
   "Fixed_Expenses"; "Misc_Budget"].

End Budget.

Module Frame.

(** [pd.DataFrame]: the column index and the rows, in order. The row
    index is positional ([read_csv], [ignore_index=True]). *)
Record DataFrame (R : Type) : Type := {
  columns : list string;
  rows : list R
}.

Arguments columns {R} d.
Arguments rows {R} d.

(** [pd.DataFrame(columns=cols)] *)
Definition of_columns {R} (cols : list string) : DataFrame R :=
  {| columns := cols; rows := [] |}.

(** [pd.DataFrame([cells], columns=cols)]: one row; pandas raises
    [ValueError] when the number of cells is not the number of columns. *)
Definition of_row {R} (width : nat) (r : R) (cols : list string)
  : outcome (DataFrame R) :=
  if Nat.eqb (length cols) width
  then Ok {| columns := cols; rows := [r] |}
  else Raise ValueError.

(** [df[name]]: the column of that name, or [KeyError] when the frame
    has none. *)
Definition getitem {R A} (df : DataFrame R) (name : string) (field : R -> A)
  : outcome (list A) :=
  if existsb (String.eqb name) (columns df)
  then Ok (List.map field (rows df))
  else Raise KeyError.

(** [pd.concat([df, new_data], ignore_index=True)] for frames over the
    same columns. *)
Definition concat {R} (df new_data : DataFrame R) : DataFrame R :=
  {| columns := columns df; rows := rows df ++ rows new_data |}.

End Frame.
Import Frame.

(** ** The world: two files and the screen *)

(** What is at a path: bytes that [read_csv] rejects, or a table under
    the header of its schema, with the rows as [read_csv] gives them.  A
    file that [read_csv] accepts under other columns is not among
    these. *)
Inductive file (R : Type) : Type :=
| Unparsable
| Csv (content : list R).

Arguments Unparsable {R}.
Arguments Csv {R} content.

(** What the script hands to Streamlit, in order. *)
Inductive widget : Type :=
| Title (s : string)
| Header (s : string)
| Subheader (s : string)
| Divider
| Metric (label : string) (v : Q)
| Series (cells : list (string * Q))
| BudgetTable (t : list Budget.row)
| ExpenseTable (t : list Expense.row)
| Warning (text : string) (v : Q)
| Write (s : string)
| Success (s : string)
| Error (s : string)
| Balloons
| LineChart (title : string) (points : list (string * Q)).

Record world : Type := {
  budget_file : option (file Budget.row);
  expense_file : option (file Expense.row);
  screen : list widget
}.

(** A table the script stores: its path, its header, its place in the
    world, and what a row written by [to_csv] is when [read_csv] reads
    it. *)
Class Stored (R : Type) : Type := {
  path : string;
  header : list string;
  at_path : world -> option (file R);
  write_path : file R -> world -> world;
  reread : R -> R
}.

(** [b = 'budget.csv'] *)
#[export] Instance b : Stored Budget.row := {|
  path := "budget.csv";
  header := Budget.columns;
  at_path := budget_file;
  write_path f w :=
    {| budget_file := Some f; expense_file := expense_file w;
       screen := screen w |};
  reread r := r
|}.

(** [e = 'expenses.csv'] *)
#[export] Instance e : Stored Expense.row := {|
  path := "expenses.csv";
  header := Expense.columns;
  at_path := expense_file;
  write_path f w :=
    {| budget_file := budget_file w; expense_file := Some f;
       screen := screen w |};
  reread := Expense.as_read
|}.

(** ** The script monad *)

Definition App (A : Type) : Type := world -> outcome A * world.

#[export] Instance App_ret : MRet App := fun A a w => (Ok a, w).

#[export] Instance App_bind : MBind App := fun A B k m w =>
  match m w with
  | (Ok a, w') => k a w'
  | (Raise x, w') => (Raise x, w')
  end.

Definition raise {A} (x : exn) : App A := fun w => (Raise x, w).

Definition lift {A} (o : outcome A) : App A := fun w => (o, w).

(** [try: body  except <catches>: handler] *)
Definition try_except {A} (body : App A) (catches : exn -> bool)
  (handler : exn -> App A) : App A := fun w =>
  match body w with
  | (Ok a, w') => (Ok a, w')
  | (Raise x, w') => if catches x then handler x w' else (Raise x, w')
  end.

(** A Streamlit call that draws one widget. *)
Definition st (x : widget) : App unit := fun w =>
  (Ok tt, {| budget_file := budget_file w; expense_file := expense_file w;
             screen := screen w ++ [x] |}).

(** ** Tabular store adapter *)

(** [os.path.exists(csv)] *)
Definition os_path_exists {R} (csv : Stored R) : App bool := fun w =>
  (Ok (match at_path w with Some _ => true | None => false end), w).

(** [pd.read_csv(csv)] *)
Definition read_csv {R} (csv : Stored R) : App (DataFrame R) := fun w =>
  match at_path w with
  | None => (Raise FileNotFoundError, w)
  | Some Unparsable => (Raise ParserError, w)
  | Some (Csv content) => (Ok {| columns := header; rows := content |}, w)
  end.

(** [df.to_csv(csv, index=False)]: the whole table replaces the file.
    The file is kept as [read_csv] will read it. *)
Definition to_csv {R} (df : DataFrame R) (csv : Stored R) : App unit :=
  fun w => (Ok tt, write_path (Csv (List.map reread (rows df))) w).

Definition create_dataframe {R} (csv : Stored R) : App (DataFrame R) :=
  df ← read_csv csv; mret df.

Definition check_budget_exists : App (DataFrame Budget.row) :=
  exists_ ← os_path_exists b;
  if (exists_ : bool) then
    try_except (create_dataframe b) any_exception (fun error =>
      st (Error "Error reading CSV");;
      mret (of_columns ["Month"; "Paycheck"; "saving1"; "saving2"; "STS";
                        "Total_Saved"; "Fixed_Expenses"; "Misc_Budget"]))
  else
    mret (of_columns ["Month"; "Paycheck"; "saving1"; "saving2"; "STS";
                      "Total_Saved"; "Fixed_Expenses"; "Misc_Budget"]).

Definition check_expense_exists : App (DataFrame Expense.row) :=
  exists_ ← os_path_exists e;
  if (exists_ : bool) then
    try_except (create_dataframe e) any_exception (fun error =>
      st (Error "Error reading CSV");;
      mret (of_columns ["Month"; "Amount"; "Category"; "Planned_Unplanned";
                        "Description"]))
  else
    mret (of_columns ["Month"; "Amount"; "Category"; "Planned_Unplanned";
                      "Description"]).

Definition fresh_world : world :=
  {| budget_file := None; expense_file := None; screen := [] |}.

(** ** Allocation calculator (page "Allocate my Paycheck") *)

Local Open Scope Q_scope.

(** [expense_df[expense_df['Category'] == cat]] *)
Definition where_category (expense_df : list Expense.row) (cat : string)
  : list Expense.row :=
  List.filter (fun r => String.eqb (Expense.Category r) cat) expense_df.

(** [X['Amount'].max() if not X.empty else 0] *)
Definition max_if_not_empty (X : list Expense.row) : Q :=
  match List.map Expense.Amount X with
  | [] => 0
  | x :: t => fold_left Qmax t x
  end.

(** [s.sum()] *)
Definition Series_sum (s : list Q) : Q := fold_left Qplus s 0.

(** [X['Amount'].mean() if not X.empty else 0] *)
Definition mean_if_not_empty (X : list Expense.row) : Q :=
  match X with
  | [] => 0
  | _ :: _ =>
      Series_sum (List.map Expense.Amount X) / inject_Z (Z.of_nat (length X))
  end.

(** The seven names assigned at lines 156 to 162 of the script. *)
Record statistics : Type := {
  rent_max : Q;
  subscriptions_max : Q;
  groceries_avg : Q;
  utilities_max : Q;
  gas_max : Q;
  pet_avg : Q;
  gym_max : Q
}.

Definition expense_statistics (expense_df : list Expense.row) : statistics :=
  {| rent_max := max_if_not_empty (where_category expense_df "Rent");
     subscriptions_max :=
       max_if_not_empty (where_category expense_df "Subscriptions");
     groceries_avg := mean_if_not_empty (where_category expense_df "Groceries");
     utilities_max := max_if_not_empty (where_category expense_df "Utilities");
     gas_max := mean_if_not_empty (where_category expense_df "Gas");
     pet_avg := mean_if_not_empty (where_category expense_df "Pet Expenses");
     gym_max :=
       max_if_not_empty (where_category expense_df "Gym Membership") |}.

(** The six names assigned at lines 169 to 176. *)
Record allocation : Type := {
  saving1_acct : Q;
  saving2_acct : Q;
  saving3_acct : Q;
  total_saved : Q;
  fixed_budget : Q;
  misc_budget : Q
}.

Definition allocate (paycheck saving1 saving2 saving3 : Q) (s : statistics)
  : allocation :=
  let saving1_acct := paycheck * saving1 in
  let saving2_acct := paycheck * saving2 in
  let saving3_acct := paycheck * saving3 in
  let total_saved := saving1_acct + saving2_acct + saving3_acct in
  let fixed_budget :=
    rent_max s + subscriptions_max s + groceries_avg s + utilities_max s
    + gas_max s + pet_avg s in
  let misc_budget := paycheck - (total_saved + fixed_budget) in
  {| saving1_acct := saving1_acct;
     saving2_acct := saving2_acct;
     saving3_acct := saving3_acct;
     total_saved := total_saved;
     fixed_budget := fixed_budget;
     misc_budget := misc_budget |}.

(** The spec's words for the fixed budget: the sum of the seven
    per-category statistics. *)
Definition seven_statistics_sum (s : statistics) : Q :=
  rent_max s + subscriptions_max s + groceries_avg s + utilities_max s
  + gas_max s + pet_avg s + gym_max s.

Definition expense (m : string) (a : Q) (c : string) : Expense.row :=
  {| Expense.Month := m; Expense.Amount := a; Expense.Category := c;
     Expense.Planned_Unplanned := Expense.Text "Yes";
     Expense.Description := Expense.Missing |}.

(** The spec's worked allocation: paycheck 2000, fractions 0.2, 0.15 and
    0.10, a history whose fixed budget is 600. *)
Definition history_600 : list Expense.row :=
  [expense "01/2024" 600 "Rent"].

(** *** Names *)

(** [x = v] *)
Definition assign (x : string) (v : value) (ns : gmap string value)
  : gmap string value := <[x := v]> ns.

(** Reading the name [x]. *)
Definition load (ns : gmap string value) (x : string) : App value :=
  match ns !! x with
  | Some v => mret v
  | None => raise (NameError x)
  end.

(** A row is a record here, so a cell read from a name has to be of the
    type of its column.  Every name the script binds holds a value of the
    right type; [TypeError] stands for the other case. *)
Definition load_num (ns : gmap string value) (x : string) : App Q :=
  v ← load ns x;
  match v with VNum q => mret q | _ => raise TypeError end.

Definition load_str (ns : gmap string value) (x : string) : App string :=
  v ← load ns x;
  match v with VStr s => mret s | _ => raise TypeError end.

(** The names bound when a page starts: the imports, the two paths, the
    functions of the script and [page]. *)
Definition script_names (page : string) : gmap string value :=
  assign "page" (VStr page)
  (assign "check_expense_exists" VObj
  (assign "check_budget_exists" VObj
  (assign "bar_chart" VObj
  (assign "pie_chart" VObj
  (assign "time_plot" VObj
  (assign "create_dataframe" VObj
  (assign "e" (VStr "expenses.csv")
  (assign "b" (VStr "budget.csv")
  (assign "date" VObj
  (assign "px" VObj
  (assign "os" VObj
  (assign "pd" VObj
  (assign "np" VObj
  (assign "st" VObj ∅)))))))))))))).

(** [if curr_date: month = curr_date.strftime("%m/%Y")] *)
Definition assign_month (curr_date : option date) (ns : gmap string value)
  : gmap string value :=
  match curr_date with
  | Some d => assign "month" (VStr (strftime_m_Y d)) ns
  | None => ns
  end.

(** The names bound when line 183 is reached, in the order of their
    assignments (lines 138 to 181). *)
Definition paycheck_form_names
  (saving1 saving2 saving3 : Q) (curr_date : option date) (paycheck : Q)
  (s : statistics) (a : allocation) (submitted : bool) : gmap string value :=
  assign "submitted" (VBool submitted)
  (assign "misc_budget" (VNum (misc_budget a))
  (assign "fixed_budget" (VNum (fixed_budget a))
  (assign "total_saved" (VNum (total_saved a))
  (assign "saving3_acct" (VNum (saving3_acct a))
  (assign "saving2_acct" (VNum (saving2_acct a))
  (assign "saving1_acct" (VNum (saving1_acct a))
  (assign "gym_max" (VNum (gym_max s))
  (assign "pet_avg" (VNum (pet_avg s))
  (assign "gas_max" (VNum (gas_max s))
  (assign "utilities_max" (VNum (utilities_max s))
  (assign "groceries_avg" (VNum (groceries_avg s))
  (assign "subscriptions_max" (VNum (subscriptions_max s))
  (assign "rent_max" (VNum (rent_max s))
  (assign "expense_df" VObj
  (assign "paycheck" (VNum paycheck)
  (assign_month curr_date
  (assign "curr_date" (match curr_date with Some _ => VObj | None => VNone end)
  (assign "saving3" (VNum saving3)
  (assign "saving2" (VNum saving2)
  (assign "saving1" (VNum saving1)
  (assign "budget_df" VObj
     (script_names "Allocate my Paycheck")))))))))))))))))))))).

(** The cells of line 185, read left to right:
    [[month, paycheck, saving1_acct, saving2_acct, sts_acct, total_saved,
      fixed_budget, misc_budget]]. *)
Definition paycheck_cells (ns : gmap string value) : App Budget.row :=
  month ← load_str ns "month";
  paycheck ← load_num ns "paycheck";
  saving1_acct ← load_num ns "saving1_acct";
  saving2_acct ← load_num ns "saving2_acct";
  sts_acct ← load_num ns "sts_acct";
  total_saved ← load_num ns "total_saved";
  fixed_budget ← load_num ns "fixed_budget";
  misc_budget ← load_num ns "misc_budget";
  mret {| Budget.Month := month;
          Budget.Paycheck := paycheck;
          Budget.saving1 := saving1_acct;
          Budget.saving2 := saving2_acct;
          Budget.STS := sts_acct;
          Budget.Total_Saved := total_saved;
          Budget.Fixed_Expenses := fixed_budget;
          Budget.Misc_Budget := misc_budget |}.

(** The [except FileNotFoundError] branch of line 166 sets six of the
    statistics to 0; [gym_max] is not among them and nothing reads it. *)
Definition statistics_on_error : statistics :=
  {| rent_max := 0; subscriptions_max := 0; groceries_avg := 0;
     utilities_max := 0; gas_max := 0; pet_avg := 0; gym_max := 0 |}.

(** Page "Allocate my Paycheck" for one run of the script: the widget
    values and whether the submit button was pressed. *)
Definition paycheck_form
  (saving1 saving2 saving3 : Q) (curr_date : option date) (paycheck : Q)
  (submitted : bool) : App allocation :=
  st (Header "Allocate my Paycheck");;
  budget_df ← check_budget_exists;
  s ← try_except
        (expense_df ← check_expense_exists;
         mret (expense_statistics (rows expense_df)))
        is_FileNotFoundError
        (fun _ => st (Error "Expenses file not found.");;
                  mret statistics_on_error);
  let a := allocate paycheck saving1 saving2 saving3 s in
  let ns :=
    paycheck_form_names saving1 saving2 saving3 curr_date paycheck s a
      submitted in
  st Divider;;
  (if submitted then
     cells ← paycheck_cells ns;
     new_data ← lift (of_row 8 cells (columns budget_df));
     let budget_df := concat budget_df new_data in
     to_csv budget_df b;;
     st (Success "Your paycheck has been successfully allocated!");;
     st Balloons
   else mret tt);;
  st (Header "Expense Summary");;
  st (Subheader "Savings Allocation");;
  st (Metric "Savings Fund 1 ($):" (saving1_acct a));;
  st (Metric "Savings Fund 2 ($):" (saving2_acct a));;
  st (Metric "Savings Fund 3 ($):" (saving3_acct a));;
  st (Metric "Total Saved ($):" (total_saved a));;
  st Divider;;
  st (Subheader "Fixed Expenses");;
  st (Metric "Total Allocation to Fixed Expenses ($):" (fixed_budget a));;
  st Divider;;
  st (Subheader "Discretionary Spend");;
  st (Metric "Total Left to Spend" (misc_budget a));;
  mret a.

(** ** Expense form (page "Log my Expenses", lines 223 to 251) *)

(** The names bound when line 245 is reached. *)
Definition expense_form_names
  (curr_date : option date) (amount : Q) (category : string)
  (scheduled : option string) (description : string) (expense_submit : bool)
  : gmap string value :=
  assign "expense_submit" (VBool expense_submit)
  (assign "description" (VStr description)
  (assign "scheduled"
     (match scheduled with Some s => VStr s | None => VNone end)
  (assign "category" (VStr category)
  (assign "amount" (VNum amount)
  (assign_month curr_date
  (assign "curr_date" (match curr_date with Some _ => VObj | None => VNone end)
  (assign "b_df" VObj
  (assign "e_df" VObj
     (script_names "Log my Expenses"))))))))).

Definition load_pill (ns : gmap string value) (x : string)
  : App Expense.cell :=
  v ← load ns x;
  match v with
  | VStr s => mret (Expense.Text s)
  | VNone => mret Expense.PyNone
  | _ => raise TypeError
  end.

(** The cells of line 247:
    [[month, amount, category, scheduled, description]]. *)
Definition expense_cells (ns : gmap string value) : App Expense.row :=
  month ← load_str ns "month";
  amount ← load_num ns "amount";
  category ← load_str ns "category";
  scheduled ← load_pill ns "scheduled";
  description ← load_str ns "description";
  mret {| Expense.Month := month;
          Expense.Amount := amount;
          Expense.Category := category;
          Expense.Planned_Unplanned := scheduled;
          Expense.Description := Expense.Text description |}.





Definition expense_form
  (curr_date : option date) (amount : Q) (category : string)
  (scheduled : option string) (description : string) (expense_submit : bool)
  : App unit :=
  st (Title "Log my Expenses");;
  e_df ← check_expense_exists;
  b_df ← check_budget_exists;
  let ns :=
    expense_form_names curr_date amount category scheduled description
      expense_submit in
  st (Subheader "Expense Form");;
  if expense_submit then
    cells ← expense_cells ns;
    new_data ← lift (of_row 5 cells (columns e_df));
    let e_df := concat e_df new_data in
    to_csv e_df e;;
    st (Success "Your expense has been successfully logged!");;
    st Balloons
  else mret tt.

(** The table a loader hands back, read off the file. *)
Definition stored_rows {R} (f : option (file R)) : list R :=
  match f with
  | Some (Csv content) => content
  | _ => []
  end.


(** ** Aggregation engine *)

(** The group key of [groupby(['Month', 'Category'])]. *)
Definition key : Type := (string * string)%type.

Definition key_of (r : Expense.row) : key :=
  (Expense.Month r, Expense.Category r).

(** Keys are Python strings: they compare character by character. *)
Definition key_compare (k1 k2 : key) : comparison :=
  match String.compare (fst k1) (fst k2) with
  | Eq => String.compare (snd k1) (snd k2)
  | c => c
  end.

Definition key_lt (k1 k2 : key) : Prop := key_compare k1 k2 = Lt.

Definition key_eqb (k1 k2 : key) : bool :=
  String.eqb (fst k1) (fst k2) && String.eqb (snd k1) (snd k2).

(** One more row for the group [k]: groups are kept in key order
    ([sort=True]) and a group adds its amounts in row order. *)
Fixpoint group_add (k : key) (v : Q) (g : list (key * Q)) : list (key * Q) :=
  match g with
  | [] => [(k, v)]
  | (k', v') :: t =>
      match key_compare k k' with
      | Eq => (k', v' + v) :: t
      | Lt => (k, v) :: g
      | Gt => (k', v') :: group_add k v t
      end
  end.

(** [data.groupby(['Month', 'Category'])['Amount'].sum()] *)
Definition groupby_sum (data : list Expense.row) : list (key * Q) :=
  fold_left (fun g r => group_add (key_of r) (Expense.Amount r) g) data [].

(** [s[select_month]] on a series indexed by (Month, Category): the
    entries of that month, indexed by Category; [KeyError] if there is
    none. *)
Definition getitem_month (s : list (key * Q)) (select_month : string)
  : outcome (list (string * Q)) :=
  match List.filter
          (fun kv : key * Q => String.eqb (fst (fst kv)) select_month) s with
  | [] => Raise KeyError
  | kv :: t =>
      Ok (List.map (fun kv : key * Q => (snd (fst kv), snd kv)) (kv :: t))
  end.

(** [s[s.index.get_level_values('Category').isin(categories)]] *)
Definition where_category_isin (s : list (key * Q)) (categories : list string)
  : list (key * Q) :=
  List.filter
    (fun kv : key * Q => existsb (String.eqb (snd (fst kv))) categories) s.

(** The row labels of a frame read from disk: 0, 1, 2, ... *)
Definition labelled {R} (df : DataFrame R) : list (nat * R) :=
  combine (seq 0 (length (rows df))) (rows df).

(** [budget_check[budget_check['Month'] == select_month]]: the rows keep
    their labels. *)
Definition where_month (budget_check : DataFrame Budget.row)
  (select_month : string) : list (nat * Budget.row) :=
  List.filter (fun lr => String.eqb (Budget.Month (snd lr)) select_month)
    (labelled budget_check).

(** [s[0]] on a series with integer labels: by label.  (On the index of
    a frame made without rows pandas raises too, [KeyError] or
    [IndexError] by version; the one use of it is under a bare except.) *)
Definition getitem_label {A} (s : list (nat * A)) (label : nat) : outcome A :=
  match List.find (fun lr => Nat.eqb (fst lr) label) s with
  | Some lr => Ok (snd lr)
  | None => Raise KeyError
  end.

(** [s.iloc[i]]: by position. *)
Definition iloc {A} (s : list (nat * A)) (i : nat) : outcome A :=
  match nth_error s i with
  | Some lr => Ok (snd lr)
  | None => Raise IndexError
  end.

(** [x > y] *)
Definition Qgt_bool (x y : Q) : bool := negb (Qle_bool x y).

Definition fixed_categories : list string :=
  ["Rent"; "Subscriptions"; "Groceries"; "Utilities"; "Gas"; "Pet Expenses";
   "Gym Membership"].

(** Lines 263 to 265. *)
Definition month_misc_expenses (expense_summary : DataFrame Expense.row)
  : list (key * Q) :=
  groupby_sum (rows expense_summary).

Definition total_misc_expenses (expense_summary : DataFrame Expense.row)
  (select_month : string) : outcome Q :=
  match getitem_month (month_misc_expenses expense_summary) select_month with
  | Ok sel => Ok (Series_sum (List.map snd sel))
  | Raise x => Raise x
  end.

(** Lines 282, 283 and 286. *)
Definition month_fixed_expenses (expense_summary : DataFrame Expense.row)
  : list (key * Q) :=
  where_category_isin (groupby_sum (rows expense_summary)) fixed_categories.

Definition total_fixed_expenses (expense_summary : DataFrame Expense.row)
  (select_month : string) : outcome Q :=
  match getitem_month (month_fixed_expenses expense_summary) select_month with
  | Ok sel => Ok (Series_sum (List.map snd sel))
  | Raise x => Raise x
  end.

(** Lines 261 to 275. *)
Definition misc_block (expense_summary : DataFrame Expense.row)
  (budget_check : DataFrame Budget.row) (select_month : string) : App unit :=
  try_except
    (st (Subheader "Miscellaneous Expenses");;
     sel ← lift (getitem_month (month_misc_expenses expense_summary)
                   select_month);
     st (Series sel);;
     total_misc_expenses ← lift (total_misc_expenses expense_summary
                                   select_month);
     st (Metric "Total Miscellaneous Expenses (Month)" total_misc_expenses);;
     misc ← lift (getitem_label
                    (List.map (fun lr => (fst lr, Budget.Misc_Budget (snd lr)))
                       (where_month budget_check select_month)) 0);
     let over_by_misc := total_misc_expenses - misc in
     if Qgt_bool total_misc_expenses misc then
       st (Warning "FYI you are over the miscellaneous spend budget by $"
             over_by_misc)
     else
       st (Write "You are within the miscellaneous spend budget."))
    any_exception
    (fun _ => st (Write "There are no miscellaneous expenses logged.")).

(** Lines 285 to 299. *)
Definition fixed_block (expense_summary : DataFrame Expense.row)
  (budget_check : DataFrame Budget.row) (select_month : string) : App unit :=
  try_except
    (total_fixed_expenses ← lift (total_fixed_expenses expense_summary
                                    select_month);
     sel ← lift (getitem_month (month_fixed_expenses expense_summary)
                   select_month);
     st (Series sel);;
     st (Metric "Total Fixed Expenses (Month)" total_fixed_expenses);;
     fixed ← lift (iloc
                     (List.map
                        (fun lr => (fst lr, Budget.Fixed_Expenses (snd lr)))
                        (where_month budget_check select_month)) 0);
     let over_by_fixed := total_fixed_expenses - fixed in
     if Qgt_bool total_fixed_expenses fixed then
       st (Warning "FYI you are over the fixed expenses budget by $"
             over_by_fixed)
     else
       st (Write "You are within the fixed expenses budget."))
    is_KeyError
    (fun _ => st (Write "There are no fixed expenses logged.")).

(** [s.unique()]: the values of a column in the order in which they
    first occur. *)
Fixpoint unique (s : list string) : list string :=
  match s with
  | [] => []
  | x :: t => x :: List.filter (fun y => negb (String.eqb y x)) (unique t)
  end.

(** The options of the select box of line 259. *)
Definition select_month_options (expense_summary : DataFrame Expense.row)
  : list string :=
  unique (List.map Expense.Month (rows expense_summary)).

(** Lines 254 to 299: the summary under the expense form.  Line 259
    reads the column [Month] for the options of the select box;
    [select_month] is the option the user chose there. *)
Definition expense_summary_section (select_month : string) : App unit :=
  st (Header "Expense Summary");;
  expense_summary ← check_expense_exists;
  budget_check ← check_budget_exists;
  Month ← lift (getitem expense_summary "Month" Expense.Month);
  let options := unique Month in
  misc_block expense_summary budget_check select_month;;
  st Divider;;
  st (Subheader "Fixed Expenses");;
  fixed_block expense_summary budget_check select_month.

(** The spec's words for the two actual totals of a month: the amounts
    of the rows of that month whose category is fixed, and of those whose
    category is not. *)
Definition is_fixed (r : Expense.row) : bool :=
  existsb (String.eqb (Expense.Category r)) fixed_categories.

Definition in_month (select_month : string) (r : Expense.row) : bool :=
  String.eqb (Expense.Month r) select_month.

Definition actual_fixed_total (expenses : list Expense.row)
  (select_month : string) : Q :=
  Series_sum (List.map Expense.Amount
    (List.filter (fun r => in_month select_month r && is_fixed r) expenses)).

Definition actual_misc_total (expenses : list Expense.row)
  (select_month : string) : Q :=
  Series_sum (List.map Expense.Amount
    (List.filter (fun r => in_month select_month r && negb (is_fixed r))
       expenses)).

Definition month_total (expenses : list Expense.row) (select_month : string)
  : Q :=
  Series_sum (List.map Expense.Amount
    (List.filter (in_month select_month) expenses)).

(** ** Notions used in the statements *)

(** The sum of the groups whose key satisfies [P]. *)
Definition sum_where (P : key -> bool) (g : list (key * Q)) : Q :=
  Series_sum (List.map snd (List.filter (fun kv : key * Q => P (fst kv)) g)).

Definition month_is (select_month : string) (k : key) : bool :=
  String.eqb (fst k) select_month.

Definition fixed_key (k : key) : bool :=
  existsb (String.eqb (snd k)) fixed_categories.

Definition rent_and_dinner : DataFrame Expense.row :=
  {| columns := Expense.columns;
     rows := [expense "01/2024" 1000 "Rent";
              expense "01/2024" 50 "Dining Out"] |}.

(** ** Screens and sample tables *)

(** The world after some more widgets. *)
Definition draw (ws : list widget) (w : world) : world :=
  {| budget_file := budget_file w; expense_file := expense_file w;
     screen := screen w ++ ws |}.

(** Runs the widget calls left in the goal and compares the screens. *)
Ltac screen_eq :=
  cbn; unfold st, draw; cbn; rewrite <- ?app_assoc; reflexivity.

Definition rent_no_budget : world :=
  {| budget_file := None;
     expense_file := Some (Csv [expense "01/2024" 1200 "Rent"]);
     screen := [] |}.

Definition budget_row (m : string) (fixed misc : Q) : Budget.row :=
  {| Budget.Month := m; Budget.Paycheck := 2000; Budget.saving1 := 400;
     Budget.saving2 := 300; Budget.STS := 200; Budget.Total_Saved := 900;
     Budget.Fixed_Expenses := fixed; Budget.Misc_Budget := misc |}.

Definition two_budgets : DataFrame Budget.row :=
  {| columns := Budget.columns;
     rows := [budget_row "01/2024" 600 500; budget_row "02/2024" 600 100] |}.

Definition february_dinner : DataFrame Expense.row :=
  {| columns := Expense.columns;
     rows := [expense "02/2024" 300 "Dining Out"] |}.

(** ** Months in order: the charts, the percent change, the history *)

(** [df.sort_values(by=...)] on a column of strings.  pandas does not
    promise an order among rows of equal key; what is proved of this
    function below holds of any sort. *)
Fixpoint insert_by {A} (by_ : A -> string) (x : A) (l : list A) : list A :=
  match l with
  | [] => [x]
  | y :: t =>
      if String.leb (by_ x) (by_ y) then x :: l else y :: insert_by by_ x t
  end.

Definition sort_values {A} (by_ : A -> string) (df : list A) : list A :=
  fold_right (insert_by by_) [] df.

(** The points [time_plot] hands to [px.line]: x is Month, y is Amount. *)
Definition time_plot_points (data : list Expense.row) (cat : string)
  : list (string * Q) :=
  let group := groupby_sum data in
  let filtered :=
    List.filter (fun kv : key * Q => String.eqb (snd (fst kv)) cat) group in
  let filtered := sort_values (fun kv : key * Q => fst (fst kv)) filtered in
  List.map (fun kv : key * Q => (fst (fst kv), snd kv)) filtered.

Definition time_plot (data : list Expense.row) (cat : string) : App unit :=
  st (LineChart ("Change in " ++ cat ++ " Over Time")
        (time_plot_points data cat)).

(** A float that a division can give. *)
Inductive float : Type :=
| Fin (q : Q)
| Inf (negative : bool)
| NaN.

(** [x / prev - 1], as [pct_change] computes it. *)
Definition pct (x prev : Q) : float :=
  if Qeq_bool prev 0 then
    if Qeq_bool x 0 then NaN else Inf (Qgt_bool 0 x)
  else Fin (x / prev - 1).

(** [.fillna(v)] *)
Definition fillna (v : Q) (x : float) : float :=
  match x with NaN => Fin v | _ => x end.

(** The latest row seen so far in the group [k]. *)
Definition lookup_key (k : key) (seen : list (key * Q)) : option Q :=
  match List.find (fun kv : key * Q => key_eqb (fst kv) k) seen with
  | Some kv => Some (snd kv)
  | None => None
  end.

(** [grouped.groupby(['Month', 'Category'])['Amount'].pct_change()]:
    each row against the row before it in its own group; [seen] holds
    the rows passed, latest first. *)
Fixpoint pct_change_from (seen : list (key * Q)) (grouped : list (key * Q))
  : list float :=
  match grouped with
  | [] => []
  | (k, x) :: t =>
      (match lookup_key k seen with
       | Some prev => pct x prev
       | None => NaN
       end) :: pct_change_from ((k, x) :: seen) t
  end.

Definition pct_change (grouped : list (key * Q)) : list float :=
  pct_change_from [] grouped.

(** Lines 86 to 88. *)
Definition grouped_finances (finances_df : list Expense.row)
  : list (key * Q) :=
  let finances_df := sort_values Expense.Month finances_df in
  groupby_sum finances_df.

(** Line 89, the column [Amount_PctChange]. *)
Definition Amount_PctChange (grouped_finances : list (key * Q))
  : list float :=
  List.map (fillna 0) (pct_change grouped_finances).

(** Page "Historical Data". *)
Definition historical_data : App unit :=
  st (Title "Historical Data");;
  st (Header "Budget History");;
  b_history ← create_dataframe b;
  let b_history := sort_values Budget.Month (rows b_history) in
  st (BudgetTable b_history);;
  st (Header "Expense History");;
  e_history ← create_dataframe e;
  let e_history := sort_values Expense.Month (rows e_history) in
  st (ExpenseTable e_history).


(** The order of Python strings on a column. *)
Definition str_le {A} (by_ : A -> string) (x y : A) : Prop :=
  String.leb (by_ x) (by_ y) = true.


Local Open Scope list_scope.

Definition rent_2024_01 : key := ("01/2024", "Rent").

(** ** The rest of the script *)

(** A row moved to another month, with its flag and description
    rewritten. *)
Definition in_december (r : Expense.row) : Expense.row :=
  {| Expense.Month := "12/2030";
     Expense.Amount := Expense.Amount r;
     Expense.Category := Expense.Category r;
     Expense.Planned_Unplanned := Expense.Missing;
     Expense.Description := Expense.Text "moved" |}.

(** An amount in whole dollars. *)
Definition whole (q : Q) : Prop := exists n : Z, q == inject_Z n.

(** Amounts that binary64 adds without rounding, in whatever order:
    whole dollars whose absolute values add up to at most 2^53. *)
Definition adds_exactly (amounts : list Q) : Prop :=
  Forall whole amounts /\
  Series_sum (List.map Qabs amounts) <= inject_Z (2 ^ 53).

(** What the rows of one (Month, Category) pair add up to. *)
Definition key_total (data : list Expense.row) (k : key) : Q :=
  Series_sum (List.map Expense.Amount
    (List.filter (fun r => key_eqb (key_of r) k) data)).

(** Two grouped tables with the same keys in the same order and equal
    sums. *)
Definition same_groups (g1 g2 : list (key * Q)) : Prop :=
  Forall2 (fun a b : key * Q => fst a = fst b /\ snd a == snd b) g1 g2.

(** A disk with two months in each table, the later year first in
    string order. *)
Definition two_months_on_disk : world :=
  {| budget_file :=
       Some (Csv [budget_row "02/2024" 600 500; budget_row "01/2025" 600 500]);
     expense_file :=
       Some (Csv [expense "02/2024" 1000 "Rent";
                  expense "01/2025" 1100 "Rent"]);
     screen := [] |}.

(** ** Page "Finances at a Glance" (lines 82 to 132) *)

(** Sums of floats as numpy forms them. *)
Definition float_add (x y : float) : float :=
  match x, y with
  | NaN, _ | _, NaN => NaN
  | Inf a, Inf b => if Bool.eqb a b then Inf a else NaN
  | Inf a, Fin _ | Fin _, Inf a => Inf a
  | Fin p, Fin q => Fin (p + q)
  end.

Definition is_nan (x : float) : bool :=
  match x with NaN => true | _ => false end.

(** [s.mean()] on a column of floats: missing values are skipped, and
    the mean of no value is [NaN]. *)
Definition Series_mean (s : list float) : float :=
  match List.filter (fun x => negb (is_nan x)) s with
  | [] => NaN
  | x :: t =>
      match fold_left float_add (x :: t) (Fin 0) with
      | Fin total => Fin (total / inject_Z (Z.of_nat (length (x :: t))))
      | other => other
      end
  end.

(** [grouped[grouped['Category'] == cat]['Amount_PctChange'].mean()],
    the column being at the side of the groups. *)
Definition mean_pct_change (grouped_finances : list (key * Q)) (cat : string)
  : float :=
  Series_mean
    (List.map snd
       (List.filter
          (fun row : (key * Q) * float => String.eqb (snd (fst (fst row))) cat)
          (combine grouped_finances (Amount_PctChange grouped_finances)))).

(** [if not mean: st.metric(label, f"{round(mean, 2) * 100}%")].  Of a
    float, [not] holds for zero only: [NaN] and the infinities count as
    true. *)
Definition trend_metric (label : string) (mean : float) : App unit :=
  match mean with
  | Fin q => if Qeq_bool q 0 then st (Metric label (q * 100)) else mret tt
  | _ => mret tt
  end.

(** Lines 91 to 108: three charts, each with its metric.  All three
    means are taken over the rows of Rent. *)
Definition change_by_month (finances_df : list Expense.row)
  (grouped_finances : list (key * Q)) : App unit :=
  st (Header "Change in Expense Category by Month");;
  time_plot finances_df "Rent";;
  (let mean_rent := mean_pct_change grouped_finances "Rent" in
   trend_metric "Average Percent Change in Rent Over Time" mean_rent);;
  time_plot finances_df "Utilities";;
  (let mean_utilities := mean_pct_change grouped_finances "Rent" in
   trend_metric "Average Percent Change in Utilities Over Time"
     mean_utilities);;
  time_plot finances_df "Groceries";;
  (let mean_groceries := mean_pct_change grouped_finances "Rent" in
   trend_metric "Average Percent Change in Rent Over Time" mean_groceries).

(** A figure of plotly express other than the line chart. *)
Inductive figure : Type :=
| Pie (slices : list (string * Q))
| Bar (bars : list (string * Q)).

(** [grouped[grouped['Month'] == month_select]] *)
Definition of_month (grouped_finances : list (key * Q))
  (month_select : string) : list (key * Q) :=
  List.filter (fun kv : key * Q => String.eqb (fst (fst kv)) month_select)
    grouped_finances.

(** The slices [px.pie(data, values='Amount', names='Category')] is
    given. *)
Definition pie_slices (data : list (key * Q)) : list (string * Q) :=
  List.map (fun kv : key * Q => (snd (fst kv), snd kv)) data.

(** [pd.melt(data, id_vars=['Month'], var_name='Account Type',
    value_name='Amount')]: one row (Month, Account Type, Amount) for
    each other column and each row, column by column. *)
Definition melt (data : list Budget.row) : list (string * string * Q) :=
  flat_map
    (fun column : string * (Budget.row -> Q) =>
       List.map (fun r => (Budget.Month r, fst column, snd column r)) data)
    [("Paycheck", Budget.Paycheck); ("saving1", Budget.saving1);
     ("saving2", Budget.saving2); ("STS", Budget.STS);
     ("Total_Saved", Budget.Total_Saved);
     ("Fixed_Expenses", Budget.Fixed_Expenses);
     ("Misc_Budget", Budget.Misc_Budget)].

(** One more row for the account [k], accounts kept in string order. *)
Fixpoint account_add (k : string) (v : Q) (g : list (string * Q))
  : list (string * Q) :=
  match g with
  | [] => [(k, v)]
  | (k', v') :: t =>
      match String.compare k k' with
      | Eq => (k', v' + v) :: t
      | Lt => (k, v) :: g
      | Gt => (k', v') :: account_add k v t
      end
  end.

(** [df.groupby('Account Type')['Amount'].sum()] *)
Definition groupby_account (df_melted : list (string * string * Q))
  : list (string * Q) :=
  fold_left
    (fun g (row : string * string * Q) =>
       account_add (snd (fst row)) (snd row) g)
    df_melted [].

(** The bars [bar_chart] gives to [px.bar] (lines 39 to 43). *)
Definition bar_chart_bars (data : list Budget.row) : list (string * Q) :=
  let df_melted := melt data in
  let df_melted :=
    sort_values (fun row : string * string * Q => fst (fst row)) df_melted in
  let df_melted :=
    List.filter
      (fun row : string * string * Q =>
         existsb (String.eqb (snd (fst row)))
           ["saving1"; "saving2"; "saving3"; "Total Saved"])
      df_melted in
  groupby_account df_melted.

Section Glance.

(** [st.plotly_chart] of a pie or bar figure: the screen has no widget
    for it, so the call is left open. *)
Variable plotly_chart : figure -> App unit.

Definition pie_chart (data : list (key * Q)) : App unit :=
  plotly_chart (Pie (pie_slices data)).

Definition bar_chart : App unit :=
  data ← read_csv b;
  plotly_chart (Bar (bar_chart_bars (rows data))).

Definition finances_at_a_glance (month_select : string) : App unit :=
  st (Title "Finances at a Glance");;
  try_except
    (finances_df ← create_dataframe e;
     let grouped_finances := grouped_finances (rows finances_df) in
     let finances_df := sort_values Expense.Month (rows finances_df) in
     change_by_month finances_df grouped_finances;;
     st Divider;;
     st (Header "Proportion of Total Expenses by Month and Category");;
     try_except
       (pie_chart (of_month grouped_finances month_select);;
        st (Metric "Sum of Expenses by Month ($)"
              (Series_sum
                 (List.map snd (of_month grouped_finances month_select)))))
       any_exception
       (fun _ => st (Write "There are no logged expenses."));;
     st Divider;;
     st (Header "Savings by Account Type");;
     try_except bar_chart any_exception
       (fun _ => st (Write "There are no logged savings.")))
    any_exception
    (fun error =>
       if is_FileNotFoundError error then
         st (Error "Error: budget.csv not found. Please upload or create a budget file.")
       else st (Error "Error")).

End Glance.

(** The strict order of Python strings. *)
Definition str_lt (s1 s2 : string) : Prop := String.compare s1 s2 = Lt.


(** * Properties *)

(** ** Tabular store adapter *)

(** What each loader returns, file state by file state. *)
Lemma check_budget_exists_eq (w : world) :
  check_budget_exists w =
  match budget_file w with
  | None => (Ok (of_columns Budget.columns), w)
  | Some Unparsable =>
      (Ok (of_columns Budget.columns),
       {| budget_file := budget_file w; expense_file := expense_file w;
          screen := screen w ++ [Error "Error reading CSV"] |})
  | Some (Csv content) =>
      (Ok {| columns := Budget.columns; rows := content |}, w)
  end.
Proof.
  cbv [check_budget_exists mbind mret App_bind App_ret os_path_exists
       try_except create_dataframe read_csv at_path header b st].
  destruct (budget_file w) as [[|content]|] eqn:Hf; rewrite ?Hf; reflexivity.
Qed.

Lemma check_expense_exists_eq (w : world) :
  check_expense_exists w =
  match expense_file w with
  | None => (Ok (of_columns Expense.columns), w)
  | Some Unparsable =>
      (Ok (of_columns Expense.columns),
       {| budget_file := budget_file w; expense_file := expense_file w;
          screen := screen w ++ [Error "Error reading CSV"] |})
  | Some (Csv content) =>
      (Ok {| columns := Expense.columns; rows := content |}, w)
  end.
Proof.
  cbv [check_expense_exists mbind mret App_bind App_ret os_path_exists
       try_except create_dataframe read_csv at_path header e st].
  destruct (expense_file w) as [[|content]|] eqn:Hf; rewrite ?Hf; reflexivity.
Qed.

(** C6.  Loading a table whose file does not exist raises nothing and
    gives a table of zero rows under the canonical columns: for the
    budget table Month, Paycheck, saving1, saving2, STS, Total_Saved,
    Fixed_Expenses, Misc_Budget; for the expense table Month, Amount,
    Category, Planned_Unplanned, Description.  The world is left as it
    was. *)
Theorem load_missing_table (w : world) :
  (budget_file w = None ->
   check_budget_exists w =
   (Ok {| columns := ["Month"; "Paycheck"; "saving1"; "saving2"; "STS";
                      "Total_Saved"; "Fixed_Expenses"; "Misc_Budget"];
          rows := [] |}, w)) /\
  (expense_file w = None ->
   check_expense_exists w =
   (Ok {| columns := ["Month"; "Amount"; "Category"; "Planned_Unplanned";
                      "Description"];
          rows := [] |}, w)).
Proof.
  split; intros H.
  - rewrite check_budget_exists_eq, H. reflexivity.
  - rewrite check_expense_exists_eq, H. reflexivity.
Qed.

Lemma load_missing_table_witness :
  check_budget_exists fresh_world =
    (Ok {| columns := Budget.columns; rows := [] |}, fresh_world) /\
  check_expense_exists fresh_world =
    (Ok {| columns := Expense.columns; rows := [] |}, fresh_world).
Proof.
  destruct (load_missing_table fresh_world) as [Hb He].
  split; [exact (Hb eq_refl) | exact (He eq_refl)].
Defined.

(** ** Allocation calculator *)

Lemma allocate_sums (paycheck saving1 saving2 saving3 : Q) (s : statistics) :
  let a := allocate paycheck saving1 saving2 saving3 s in
  saving1_acct a + saving2_acct a + saving3_acct a == total_saved a /\
  total_saved a + fixed_budget a + misc_budget a == paycheck.
Proof. simpl. split; ring. Qed.

(** C1.  Allocation identity: for a paycheck P >= 0 and fractions f1, f2,
    f3 in [0, 0.30], over any expense history, the three savings amounts
    add up to total_saved, and total_saved + fixed_budget + misc_budget
    is P, as equations of exact arithmetic. *)
Theorem allocation_identity
  (paycheck saving1 saving2 saving3 : Q) (expense_df : list Expense.row) :
  0 <= paycheck ->
  0 <= saving1 <= 0.30 -> 0 <= saving2 <= 0.30 -> 0 <= saving3 <= 0.30 ->
  let a :=
    allocate paycheck saving1 saving2 saving3 (expense_statistics expense_df) in
  saving1_acct a = paycheck * saving1 /\
  saving2_acct a = paycheck * saving2 /\
  saving3_acct a = paycheck * saving3 /\
  saving1_acct a + saving2_acct a + saving3_acct a == total_saved a /\
  total_saved a + fixed_budget a + misc_budget a == paycheck.
Proof.
  intros _ _ _ _ a.
  destruct (allocate_sums paycheck saving1 saving2 saving3
              (expense_statistics expense_df)) as [Hs Hp].
  repeat split; assumption.
Qed.

Lemma allocation_identity_witness :
  let a := allocate 2000 0.2 0.15 0.10 (expense_statistics history_600) in
  saving1_acct a + saving2_acct a + saving3_acct a == total_saved a /\
  total_saved a + fixed_budget a + misc_budget a == 2000.
Proof.
  intros a.
  assert (H0 : 0 <= 2000) by (vm_compute; discriminate).
  assert (H1 : 0 <= 0.2 <= 0.30) by (split; vm_compute; discriminate).
  assert (H2 : 0 <= 0.15 <= 0.30) by (split; vm_compute; discriminate).
  assert (H3 : 0 <= 0.10 <= 0.30) by (split; vm_compute; discriminate).
  destruct (allocation_identity 2000 0.2 0.15 0.10 history_600 H0 H1 H2 H3)
    as (_ & _ & _ & Hs & Hp).
  split; [exact Hs | exact Hp].
Defined.

Example allocation_worked :
  let a := allocate 2000 0.2 0.15 0.10 (expense_statistics history_600) in
  saving1_acct a == 400 /\ saving2_acct a == 300 /\ saving3_acct a == 200 /\
  total_saved a == 900 /\ fixed_budget a == 600 /\ misc_budget a == 500.
Proof. vm_compute. repeat split. Qed.

(** What line 175 adds up, and what it leaves out. *)
Lemma fixed_budget_six (paycheck saving1 saving2 saving3 : Q) (s : statistics) :
  fixed_budget (allocate paycheck saving1 saving2 saving3 s) + gym_max s
  == seven_statistics_sum s.
Proof. unfold seven_statistics_sum. simpl. ring. Qed.

(** C2 (fails on the code).  With one Gym Membership expense of 50 in the
    history, the sum of the seven statistics is 50 but the fixed budget the
    calculator computes is 0: [gym_max] is assigned and never added. *)
Theorem fixed_budget_drops_gym :
  let expense_df := [expense "01/2024" 50 "Gym Membership"] in
  let s := expense_statistics expense_df in
  gym_max s == 50 /\
  seven_statistics_sum s == 50 /\
  fixed_budget (allocate 2000 0.2 0.15 0.10 s) == 0 /\
  ~ fixed_budget (allocate 2000 0.2 0.15 0.10 s) == seven_statistics_sum s.
Proof. vm_compute. repeat split; discriminate. Qed.

(** ** Names and the two forms *)

Lemma load_bound (ns : gmap string value) (x : string) (v : value) (w : world) :
  ns !! x = Some v -> load ns x w = (Ok v, w).
Proof. intros H. unfold load. rewrite H. reflexivity. Qed.

Lemma load_unbound (ns : gmap string value) (x : string) (w : world) :
  ns !! x = None -> load ns x w = (Raise (NameError x), w).
Proof. intros H. unfold load. rewrite H. reflexivity. Qed.

Lemma sts_acct_unbound saving1 saving2 saving3 curr_date paycheck s a submitted :
  paycheck_form_names saving1 saving2 saving3 curr_date paycheck s a submitted
    !! "sts_acct" = None.
Proof.
  unfold paycheck_form_names, assign_month, script_names, assign.
  destruct curr_date; simplify_map_eq; reflexivity.
Qed.

Lemma month_bound_iff saving1 saving2 saving3 curr_date paycheck s a submitted :
  paycheck_form_names saving1 saving2 saving3 curr_date paycheck s a submitted
    !! "month" =
  match curr_date with
  | Some d => Some (VStr (strftime_m_Y d))
  | None => None
  end.
Proof.
  unfold paycheck_form_names, assign_month, script_names, assign.
  destruct curr_date; simplify_map_eq; reflexivity.
Qed.

Lemma paycheck_bound saving1 saving2 saving3 curr_date paycheck s a submitted :
  let ns := paycheck_form_names saving1 saving2 saving3 curr_date paycheck s a
              submitted in
  ns !! "paycheck" = Some (VNum paycheck) /\
  ns !! "saving1_acct" = Some (VNum (saving1_acct a)) /\
  ns !! "saving2_acct" = Some (VNum (saving2_acct a)).
Proof.
  unfold paycheck_form_names, assign_month, script_names, assign.
  destruct curr_date; simplify_map_eq; repeat split; reflexivity.
Qed.

(** Line 185 never gets to build its row. *)
Lemma paycheck_cells_raises
  saving1 saving2 saving3 curr_date paycheck s a submitted (w : world) :
  paycheck_cells
    (paycheck_form_names saving1 saving2 saving3 curr_date paycheck s a
       submitted) w =
  (Raise (NameError (match curr_date with
                     | Some _ => "sts_acct"
                     | None => "month"
                     end)), w).
Proof.
  pose proof (month_bound_iff saving1 saving2 saving3 curr_date paycheck s a
                submitted) as Hm.
  pose proof (paycheck_bound saving1 saving2 saving3 curr_date paycheck s a
                submitted) as (Hp & H1 & H2).
  pose proof (sts_acct_unbound saving1 saving2 saving3 curr_date paycheck s a
                submitted) as Hs.
  unfold paycheck_cells, load_str, load_num.
  cbv [mbind App_bind].
  destruct curr_date as [d|].
  - rewrite (load_bound _ _ _ _ Hm); cbv beta iota delta [mret App_ret].
    rewrite (load_bound _ _ _ _ Hp); cbv beta iota delta [mret App_ret].
    rewrite (load_bound _ _ _ _ H1); cbv beta iota delta [mret App_ret].
    rewrite (load_bound _ _ _ _ H2); cbv beta iota delta [mret App_ret].
    rewrite (load_unbound _ _ _ Hs).
    reflexivity.
  - rewrite (load_unbound _ _ _ Hm). reflexivity.
Qed.

(** C3 (fails on the code).  Whatever the widgets hold and whatever is on
    disk, a run of the page with the submit button pressed ends in a
    [NameError] (for [sts_acct], or for [month] when no date was picked)
    and leaves both files as they were: no Budget row is appended. *)
Theorem paycheck_submit_raises
  (saving1 saving2 saving3 : Q) (curr_date : option date) (paycheck : Q)
  (w : world) :
  exists w',
    paycheck_form saving1 saving2 saving3 curr_date paycheck true w =
    (Raise (NameError (match curr_date with
                       | Some _ => "sts_acct"
                       | None => "month"
                       end)), w') /\
    budget_file w' = budget_file w /\
    expense_file w' = expense_file w.
Proof.
  unfold paycheck_form. cbv beta iota zeta.
  cbv [mbind App_bind try_except].
  cbn [st budget_file expense_file screen].
  rewrite check_budget_exists_eq; cbn [budget_file expense_file screen].
  destruct (budget_file w) as [[|bc]|] eqn:Hb;
    cbn [budget_file expense_file screen];
    rewrite check_expense_exists_eq; cbn [budget_file expense_file screen];
    destruct (expense_file w) as [[|ec]|] eqn:He;
    cbn [budget_file expense_file screen mret App_ret st];
    rewrite paycheck_cells_raises;
    eexists; (split; [reflexivity | split; cbn; congruence]).
Qed.

(** The same run at the spec's figures, on an empty disk: the widgets
    drawn before line 185, then the exception. *)
Example paycheck_submit_2000 :
  paycheck_form 0.2 0.15 0.10
    (Some {| year := 2024; month := 1; day := 15 |}) 2000 true fresh_world
  = (Raise (NameError "sts_acct"),
     {| budget_file := None; expense_file := None;
        screen := [Header "Allocate my Paycheck"; Divider] |}).
Proof.
  unfold paycheck_form. cbv beta iota zeta.
  cbv [mbind App_bind try_except].
  cbn [st budget_file expense_file screen].
  rewrite check_budget_exists_eq; cbn [budget_file expense_file screen fresh_world].
  rewrite check_expense_exists_eq; cbn [budget_file expense_file screen fresh_world].
  cbn [mret App_ret st budget_file expense_file screen].
  rewrite paycheck_cells_raises. reflexivity.
Qed.


Lemma expense_cells_no_date
  amount category scheduled description expense_submit (w : world) :
  expense_cells
    (expense_form_names None amount category scheduled description
       expense_submit) w = (Raise (NameError "month"), w).
Proof.
  unfold expense_cells, load_str, load_num, load_pill, load,
    expense_form_names, assign_month, script_names, assign.
  cbv [mbind App_bind].
  simplify_map_eq. reflexivity.
Qed.

Lemma check_expense_exists_rows (w : world) :
  exists w',
    check_expense_exists w =
    (Ok {| columns := Expense.columns;
           rows := stored_rows (expense_file w) |}, w') /\
    budget_file w' = budget_file w /\ expense_file w' = expense_file w.
Proof.
  rewrite check_expense_exists_eq.
  destruct (expense_file w) as [[|c]|] eqn:Hf; eexists;
    (split; [reflexivity | cbn; auto]).
Qed.

Lemma check_budget_exists_rows (w : world) :
  exists w',
    check_budget_exists w =
    (Ok {| columns := Budget.columns;
           rows := stored_rows (budget_file w) |}, w') /\
    budget_file w' = budget_file w /\ expense_file w' = expense_file w.
Proof.
  rewrite check_budget_exists_eq.
  destruct (budget_file w) as [[|c]|] eqn:Hf; eexists;
    (split; [reflexivity | cbn; auto]).
Qed.










(** Without a date the same run stops at line 247 on the name [month]. *)
Lemma expense_form_no_date
  (amount : Q) (category : string) (scheduled : option string)
  (description : string) (w : world) :
  exists w1,
    expense_form None amount category scheduled description true w
      = (Raise (NameError "month"), w1) /\
    expense_file w1 = expense_file w /\ budget_file w1 = budget_file w.
Proof.
  unfold expense_form.
  cbv [mbind App_bind]. cbn [st].
  rewrite check_expense_exists_eq; cbn [budget_file expense_file screen].
  destruct (expense_file w) as [[|ec]|] eqn:He;
    cbn [budget_file expense_file screen];
    rewrite check_budget_exists_eq; cbn [budget_file expense_file screen];
    destruct (budget_file w) as [[|bc]|] eqn:Hb;
    cbn [budget_file expense_file screen];
    rewrite expense_cells_no_date;
    eexists; (split; [reflexivity | split; cbn; congruence]).
Qed.

(** ** Sums of series *)

Lemma fold_left_Qplus (s : list Q) (a : Q) :
  fold_left Qplus s a == a + Series_sum s.
Proof.
  unfold Series_sum. revert a.
  induction s as [|x t IH]; intros a; simpl.
  - ring.
  - rewrite (IH (a + x)), (IH (0 + x)). ring.
Qed.

Lemma Series_sum_cons (x : Q) (t : list Q) :
  Series_sum (x :: t) == x + Series_sum t.
Proof.
  unfold Series_sum at 1. simpl. rewrite fold_left_Qplus. ring.
Qed.

Lemma Series_sum_nil : Series_sum [] == 0.
Proof. reflexivity. Qed.

(** ** The order of keys *)

Lemma string_compare_refl (s : string) : String.compare s s = Eq.
Proof. apply String_as_OT.cmp_eq. reflexivity. Qed.

Lemma string_compare_lt_trans (x y z : string) :
  String.compare x y = Lt -> String.compare y z = Lt ->
  String.compare x z = Lt.
Proof.
  intros H1 H2.
  apply String_as_OT.cmp_lt in H1. apply String_as_OT.cmp_lt in H2.
  apply String_as_OT.cmp_lt. eapply String_as_OT.lt_trans; eassumption.
Qed.

Lemma key_compare_eq (k1 k2 : key) : key_compare k1 k2 = Eq -> k1 = k2.
Proof.
  destruct k1 as [m1 c1], k2 as [m2 c2]. unfold key_compare. simpl.
  destruct (String.compare m1 m2) eqn:Hm; try discriminate.
  intros Hc. apply String.compare_eq_iff in Hm, Hc. congruence.
Qed.

Lemma key_compare_refl (k : key) : key_compare k k = Eq.
Proof.
  destruct k as [m c]. unfold key_compare. simpl.
  rewrite !string_compare_refl. reflexivity.
Qed.

Lemma key_compare_antisym (k1 k2 : key) :
  key_compare k1 k2 = CompOpp (key_compare k2 k1).
Proof.
  destruct k1 as [m1 c1], k2 as [m2 c2]. unfold key_compare. simpl.
  rewrite (String.compare_antisym m1 m2).
  destruct (String.compare m2 m1); simpl; auto.
  apply String.compare_antisym.
Qed.

Lemma key_lt_irrefl (k : key) : ~ key_lt k k.
Proof. unfold key_lt. rewrite key_compare_refl. discriminate. Qed.

Lemma key_lt_trans (k1 k2 k3 : key) :
  key_lt k1 k2 -> key_lt k2 k3 -> key_lt k1 k3.
Proof.
  destruct k1 as [m1 c1], k2 as [m2 c2], k3 as [m3 c3].
  unfold key_lt, key_compare. simpl.
  destruct (String.compare m1 m2) eqn:H12; try discriminate;
    destruct (String.compare m2 m3) eqn:H23; try discriminate; intros Ha Hb.
  - apply String.compare_eq_iff in H12, H23. subst.
    rewrite string_compare_refl. eapply string_compare_lt_trans; eassumption.
  - apply String.compare_eq_iff in H12. subst. rewrite H23. reflexivity.
  - apply String.compare_eq_iff in H23. subst. rewrite H12. reflexivity.
  - rewrite (string_compare_lt_trans _ _ _ H12 H23). reflexivity.
Qed.

Lemma key_gt_lt (k1 k2 : key) : key_compare k1 k2 = Gt -> key_lt k2 k1.
Proof.
  unfold key_lt. rewrite (key_compare_antisym k2 k1). intros ->. reflexivity.
Qed.

Lemma key_eqb_eq (k1 k2 : key) : key_eqb k1 k2 = true <-> k1 = k2.
Proof.
  destruct k1 as [m1 c1], k2 as [m2 c2]. unfold key_eqb. simpl.
  rewrite andb_true_iff, !String.eqb_eq. split.
  - intros [-> ->]. reflexivity.
  - intros H. inversion H. auto.
Qed.

(** ** Grouped sums *)

Section GroupedSums.

Variable P : key -> bool.

Lemma sum_where_cons (k : key) (v : Q) (g : list (key * Q)) :
  sum_where P ((k, v) :: g) == (if P k then v else 0) + sum_where P g.
Proof.
  unfold sum_where. simpl. destruct (P k); simpl.
  - apply Series_sum_cons.
  - ring.
Qed.

Lemma sum_where_group_add (k : key) (v : Q) (g : list (key * Q)) :
  sum_where P (group_add k v g) == sum_where P g + (if P k then v else 0).
Proof.
  induction g as [|[k' v'] t IH]; simpl.
  - rewrite sum_where_cons. unfold sum_where. simpl.
    rewrite Series_sum_nil. ring.
  - destruct (key_compare k k') eqn:Hc.
    + apply key_compare_eq in Hc. subst k'.
      rewrite !sum_where_cons. destruct (P k); ring.
    + rewrite !sum_where_cons. ring.
    + rewrite !sum_where_cons, IH. ring.
Qed.

Lemma sum_where_fold (data : list Expense.row) (g : list (key * Q)) :
  sum_where P
    (fold_left (fun g r => group_add (key_of r) (Expense.Amount r) g) data g)
  == sum_where P g +
     Series_sum (List.map Expense.Amount
       (List.filter (fun r => P (key_of r)) data)).
Proof.
  revert g. induction data as [|r t IH]; intros g; simpl.
  - rewrite Series_sum_nil. ring.
  - rewrite IH, sum_where_group_add.
    destruct (P (key_of r)); simpl.
    + rewrite Series_sum_cons. ring.
    + ring.
Qed.

(** Grouping loses nothing: over any set of keys, the grouped sums add
    up to what the rows add up to. *)
Lemma sum_where_groupby (data : list Expense.row) :
  sum_where P (groupby_sum data)
  == Series_sum (List.map Expense.Amount
       (List.filter (fun r => P (key_of r)) data)).
Proof.
  unfold groupby_sum. rewrite sum_where_fold.
  unfold sum_where at 1. simpl. rewrite Series_sum_nil. ring.
Qed.

End GroupedSums.

Lemma In_group_add (k0 : key) (v : Q) (g : list (key * Q)) (k : key) :
  In k (List.map fst (group_add k0 v g)) <->
  k = k0 \/ In k (List.map fst g).
Proof.
  induction g as [|[k' v'] t IH]; simpl.
  - intuition.
  - destruct (key_compare k0 k') eqn:Hc; simpl.
    + apply key_compare_eq in Hc. subst k'. intuition.
    + intuition.
    + rewrite IH. intuition.
Qed.

Lemma In_groupby_fold (data : list Expense.row) (g : list (key * Q)) (k : key) :
  In k (List.map fst
    (fold_left (fun g r => group_add (key_of r) (Expense.Amount r) g) data g))
  <-> In k (List.map key_of data) \/ In k (List.map fst g).
Proof.
  revert g. induction data as [|r t IH]; intros g; simpl.
  - intuition.
  - rewrite IH, In_group_add. intuition.
Qed.

(** The groups are the keys that occur in the rows. *)
Lemma In_groupby (data : list Expense.row) (k : key) :
  In k (List.map fst (groupby_sum data)) <-> In k (List.map key_of data).
Proof.
  unfold groupby_sum. rewrite In_groupby_fold. simpl. intuition.
Qed.

Lemma group_add_sorted (k : key) (v : Q) (g : list (key * Q)) :
  StronglySorted key_lt (List.map fst g) ->
  StronglySorted key_lt (List.map fst (group_add k v g)).
Proof.
  induction g as [|[k' v'] t IH]; simpl; intros Hs.
  - repeat constructor.
  - inversion Hs as [|? ? Ht Hall]; subst.
    destruct (key_compare k k') eqn:Hc; simpl.
    + constructor; assumption.
    + constructor; [assumption|].
      constructor; [exact Hc|].
      eapply List.Forall_impl; [|exact Hall].
      intros k2 H2. eapply key_lt_trans; eassumption.
    + constructor; [apply IH; assumption|].
      apply List.Forall_forall. intros k2 Hin.
      apply In_group_add in Hin. destruct Hin as [->|Hin].
      * apply key_gt_lt. exact Hc.
      * rewrite List.Forall_forall in Hall. apply Hall. exact Hin.
Qed.

(** The groups come out in strictly increasing key order. *)
Lemma groupby_sorted (data : list Expense.row) :
  StronglySorted key_lt (List.map fst (groupby_sum data)).
Proof.
  unfold groupby_sum.
  assert (H : forall g, StronglySorted key_lt (List.map fst g) ->
    StronglySorted key_lt (List.map fst
      (fold_left (fun g r => group_add (key_of r) (Expense.Amount r) g)
         data g))).
  { induction data as [|r t IH]; intros g Hg; simpl; [exact Hg|].
    apply IH. apply group_add_sorted. exact Hg. }
  apply H. constructor.
Qed.

Lemma sorted_keys_NoDup (l : list key) : StronglySorted key_lt l -> List.NoDup l.
Proof.
  induction 1 as [|k l Hs IH Hall]; constructor; [|exact IH].
  intros Hin. rewrite List.Forall_forall in Hall.
  exact (key_lt_irrefl k (Hall k Hin)).
Qed.

Lemma groupby_NoDup (data : list Expense.row) :
  List.NoDup (List.map fst (groupby_sum data)).
Proof. apply sorted_keys_NoDup, groupby_sorted. Qed.

(** ** Selections *)

Lemma filter_twice {A} (f g : A -> bool) (l : list A) :
  List.filter f (List.filter g l) = List.filter (fun x => f x && g x) l.
Proof.
  induction l as [|x t IH]; simpl; [reflexivity|].
  destruct (g x); simpl.
  - destruct (f x); simpl; rewrite IH; reflexivity.
  - rewrite andb_false_r. exact IH.
Qed.

Lemma filter_nil_iff {A} (f : A -> bool) (l : list A) :
  List.filter f l = [] <-> (forall x, In x l -> f x = false).
Proof.
  induction l as [|x t IH]; simpl.
  - intuition.
  - destruct (f x) eqn:Hx.
    + split; [discriminate|]. intros H. specialize (H x (or_introl eq_refl)).
      congruence.
    + rewrite IH. split.
      * intros H y [<-|Hy]; auto.
      * intros H y Hy. apply H. right. exact Hy.
Qed.

Lemma getitem_month_sum (g : list (key * Q)) (m : string)
  (sel : list (string * Q)) :
  getitem_month g m = Ok sel ->
  Series_sum (List.map snd sel) = sum_where (month_is m) g.
Proof.
  unfold getitem_month, sum_where, month_is.
  assert (Hmap : forall l : list (key * Q),
    List.map snd (List.map (fun kv : key * Q => (snd (fst kv), snd kv)) l)
    = List.map snd l)
    by (intros l; rewrite List.map_map; reflexivity).
  destruct (List.filter _ g) as [|kv t] eqn:Hf; intros H; [discriminate H|].
  inversion H; subst. f_equal. apply (Hmap (kv :: t)).
Qed.

Lemma getitem_month_ok (g : list (key * Q)) (m : string) (k : key) :
  In k (List.map fst g) -> fst k = m ->
  exists sel, getitem_month g m = Ok sel.
Proof.
  intros Hin Hm. unfold getitem_month.
  destruct (List.filter _ g) as [|kv t] eqn:Hf; [|eauto].
  exfalso. apply in_map_iff in Hin. destruct Hin as ([k' v] & Hk & Hin).
  simpl in Hk. subst k'.
  pose proof (proj1 (filter_nil_iff _ g) Hf (k, v) Hin) as Hfalse.
  simpl in Hfalse. apply String.eqb_neq in Hfalse. contradiction.
Qed.

Lemma getitem_month_raises (g : list (key * Q)) (m : string) :
  (forall k, In k (List.map fst g) -> fst k <> m) ->
  getitem_month g m = Raise KeyError.
Proof.
  intros H. unfold getitem_month.
  replace (List.filter _ g) with (@nil (key * Q)); [reflexivity|].
  symmetry. apply filter_nil_iff. intros [k v] Hin. simpl.
  apply String.eqb_neq. apply H. apply in_map_iff. exists (k, v). auto.
Qed.

(** The month splits into its fixed rows and the others. *)
Lemma month_total_split (expenses : list Expense.row) (m : string) :
  month_total expenses m
  == actual_fixed_total expenses m + actual_misc_total expenses m.
Proof.
  unfold month_total, actual_fixed_total, actual_misc_total.
  induction expenses as [|r t IH]; simpl.
  - rewrite Series_sum_nil. ring.
  - destruct (in_month m r); simpl; [|exact IH].
    destruct (is_fixed r); simpl; rewrite !Series_sum_cons, IH; ring.
Qed.

(** What line 265 adds up: every row of the month. *)
Lemma total_misc_expenses_eq (expense_summary : DataFrame Expense.row)
  (m : string) (t : Q) :
  total_misc_expenses expense_summary m = Ok t ->
  t == month_total (rows expense_summary) m.
Proof.
  unfold total_misc_expenses, month_misc_expenses.
  destruct (getitem_month _ m) as [sel|x] eqn:Hg; intros H; [|discriminate H].
  inversion H; subst.
  rewrite (getitem_month_sum _ _ _ Hg), sum_where_groupby. reflexivity.
Qed.

Lemma total_misc_expenses_ok (expense_summary : DataFrame Expense.row)
  (m : string) (r : Expense.row) :
  In r (rows expense_summary) -> Expense.Month r = m ->
  exists sel,
    getitem_month (month_misc_expenses expense_summary) m = Ok sel /\
    total_misc_expenses expense_summary m = Ok (Series_sum (List.map snd sel)).
Proof.
  intros Hin Hm. unfold total_misc_expenses.
  destruct (getitem_month_ok (month_misc_expenses expense_summary) m (key_of r))
    as (sel & Hsel).
  - apply In_groupby. apply in_map. exact Hin.
  - exact Hm.
  - exists sel. rewrite Hsel. auto.
Qed.

(** What line 286 adds up: the rows of the month in a fixed category. *)
Lemma total_fixed_expenses_eq (expense_summary : DataFrame Expense.row)
  (m : string) (t : Q) :
  total_fixed_expenses expense_summary m = Ok t ->
  t == actual_fixed_total (rows expense_summary) m.
Proof.
  unfold total_fixed_expenses, month_fixed_expenses, where_category_isin.
  destruct (getitem_month _ m) as [sel|x] eqn:Hg; intros H; [|discriminate H].
  inversion H; subst.
  rewrite (getitem_month_sum _ _ _ Hg).
  unfold sum_where. rewrite filter_twice.
  pose proof (sum_where_groupby (fun k => month_is m k && fixed_key k)
                (rows expense_summary)) as Hs.
  unfold sum_where in Hs. rewrite Hs. reflexivity.
Qed.

Lemma In_month_fixed_expenses (expense_summary : DataFrame Expense.row)
  (k : key) :
  In k (List.map fst (month_fixed_expenses expense_summary)) <->
  In k (List.map key_of (rows expense_summary)) /\ fixed_key k = true.
Proof.
  unfold month_fixed_expenses, where_category_isin.
  rewrite <- In_groupby, !in_map_iff. split.
  - intros ([k' v] & Hk & Hin). simpl in Hk. subst k'.
    apply filter_In in Hin. destruct Hin as [Hin Hf]. split.
    + exists (k, v). auto.
    + exact Hf.
  - intros [([k' v] & Hk & Hin) Hf]. simpl in Hk. subst k'.
    exists (k, v). split; [reflexivity|]. apply filter_In. auto.
Qed.

Lemma total_fixed_expenses_ok (expense_summary : DataFrame Expense.row)
  (m : string) (r : Expense.row) :
  In r (rows expense_summary) -> Expense.Month r = m -> is_fixed r = true ->
  exists sel,
    getitem_month (month_fixed_expenses expense_summary) m = Ok sel /\
    total_fixed_expenses expense_summary m = Ok (Series_sum (List.map snd sel)).
Proof.
  intros Hin Hm Hf. unfold total_fixed_expenses.
  destruct (getitem_month_ok (month_fixed_expenses expense_summary) m (key_of r))
    as (sel & Hsel).
  - apply In_month_fixed_expenses. split; [apply in_map; exact Hin | exact Hf].
  - exact Hm.
  - exists sel. rewrite Hsel. auto.
Qed.

Lemma total_fixed_expenses_raises (expense_summary : DataFrame Expense.row)
  (m : string) :
  (forall r, In r (rows expense_summary) -> Expense.Month r = m ->
             is_fixed r = false) ->
  total_fixed_expenses expense_summary m = Raise KeyError.
Proof.
  intros H. unfold total_fixed_expenses.
  rewrite getitem_month_raises; [reflexivity|].
  intros k Hin Hm. apply In_month_fixed_expenses in Hin.
  destruct Hin as [Hin Hf]. apply in_map_iff in Hin.
  destruct Hin as (r & Hk & Hr). subst k.
  specialize (H r Hr Hm). unfold is_fixed in H. unfold fixed_key, key_of in Hf.
  cbn [snd] in Hf. congruence.
Qed.

(** C4 (fails on the code).  For a month that has expense rows, the
    total the script shows as miscellaneous is defined and is the sum of
    all rows of the month, fixed categories included: the actual fixed
    total plus the actual miscellaneous total, not the latter alone. *)
Theorem misc_total_is_month_total
  (expense_summary : DataFrame Expense.row) (select_month : string) :
  (exists r, In r (rows expense_summary) /\
             Expense.Month r = select_month) ->
  exists t,
    total_misc_expenses expense_summary select_month = Ok t /\
    t == actual_fixed_total (rows expense_summary) select_month
         + actual_misc_total (rows expense_summary) select_month.
Proof.
  intros (r & Hin & Hm).
  destruct (total_misc_expenses_ok expense_summary select_month r Hin Hm)
    as (sel & _ & Ht).
  eexists. split; [exact Ht|].
  rewrite <- month_total_split.
  apply total_misc_expenses_eq. exact Ht.
Qed.

Lemma misc_total_is_month_total_witness :
  actual_misc_total (rows rent_and_dinner) "01/2024" == 50 /\
  actual_fixed_total (rows rent_and_dinner) "01/2024" == 1000 /\
  exists t,
    total_misc_expenses rent_and_dinner "01/2024" = Ok t /\ t == 1050.
Proof.
  split; [vm_compute; reflexivity|].
  split; [vm_compute; reflexivity|].
  destruct (misc_total_is_month_total rent_and_dinner "01/2024")
    as (t & Ht & Hsum).
  - exists (expense "01/2024" 1000 "Rent"). split; [left|]; reflexivity.
  - exists t. split; [exact Ht|]. rewrite Hsum. vm_compute. reflexivity.
Defined.

Example misc_total_rent_and_dinner :
  total_misc_expenses rent_and_dinner "01/2024" = Ok 1050 /\
  total_fixed_expenses rent_and_dinner "01/2024" = Ok 1000.
Proof. split; vm_compute; reflexivity. Qed.

(** ** The two budget comparisons *)

Lemma st_draw (x : widget) (w : world) : st x w = (Ok tt, draw [x] w).
Proof. reflexivity. Qed.

Lemma Qgt_bool_iff (x y : Q) : Qgt_bool x y = true <-> y < x.
Proof.
  unfold Qgt_bool. rewrite negb_true_iff. split.
  - intros H. apply Qnot_le_lt. intros Hle.
    apply Qle_bool_iff in Hle. congruence.
  - intros H. destruct (Qle_bool x y) eqn:Hb; [|reflexivity].
    apply Qle_bool_iff in Hb. exfalso. exact (Qlt_not_le _ _ H Hb).
Qed.

Lemma find_none_of {A} (f : A -> bool) (l : list A) :
  (forall x, In x l -> f x = false) -> List.find f l = None.
Proof.
  induction l as [|x t IH]; simpl; intros H; [reflexivity|].
  rewrite (H x (or_introl eq_refl)). apply IH. intros y Hy. apply H.
  right. exact Hy.
Qed.

Lemma In_combine_seq {R} (l : list R) (s n i : nat) (r : R) :
  In (i, r) (combine (seq s n) l) -> (s <= i)%nat /\ In r l.
Proof.
  revert s n. induction l as [|x t IH]; intros s n Hin.
  - destruct n; simpl in Hin; contradiction.
  - destruct n as [|n]; simpl in Hin; [contradiction|].
    destruct Hin as [Heq|Hin].
    + inversion Heq; subst. split; [lia | left; reflexivity].
    + apply IH in Hin. destruct Hin as [Hle Hin]. split; [lia | right; exact Hin].
Qed.

Lemma where_month_nil (budget_check : DataFrame Budget.row) (m : string) :
  (forall r, In r (rows budget_check) -> Budget.Month r <> m) ->
  where_month budget_check m = [].
Proof.
  intros H. unfold where_month, labelled. apply filter_nil_iff.
  intros [i r] Hin. apply In_combine_seq in Hin. destruct Hin as [_ Hin].
  simpl. apply String.eqb_neq. apply H. exact Hin.
Qed.

(** [s[0]] finds the budget of the month only on the first row of the
    table. *)
Lemma Misc_Budget_label_0 (budget_check : DataFrame Budget.row) (m : string)
  (r0 : Budget.row) (rest : list Budget.row) :
  rows budget_check = r0 :: rest ->
  getitem_label
    (List.map (fun lr : nat * Budget.row => (fst lr, Budget.Misc_Budget (snd lr)))
       (where_month budget_check m)) 0
  = if String.eqb (Budget.Month r0) m
    then Ok (Budget.Misc_Budget r0)
    else Raise KeyError.
Proof.
  intros Hrows. unfold where_month, labelled. rewrite Hrows. simpl.
  destruct (String.eqb (Budget.Month r0) m); [reflexivity|].
  unfold getitem_label. rewrite find_none_of; [reflexivity|].
  intros [i q] Hin. apply in_map_iff in Hin.
  destruct Hin as ([j r] & Heq & Hin). simpl in Heq. inversion Heq; subst.
  apply filter_In in Hin. destruct Hin as [Hin _].
  apply In_combine_seq in Hin. destruct Hin as [Hle _].
  simpl. destruct i; [lia | reflexivity].
Qed.

(** The miscellaneous block ends without an exception, whatever it is
    given. *)
Lemma misc_block_ok (expense_summary : DataFrame Expense.row)
  (budget_check : DataFrame Budget.row) (m : string) (w : world) :
  exists w', misc_block expense_summary budget_check m w = (Ok tt, w').
Proof.
  unfold misc_block, try_except.
  match goal with |- context [match ?body w with _ => _ end] =>
    destruct (body w) as [[[]|x] w1] end.
  - eauto.
  - cbn. eauto.
Qed.

(** A month with expense rows and no budget row: the block shows the
    table and the total, then its message. *)
Lemma misc_block_no_budget_row (expense_summary : DataFrame Expense.row)
  (budget_check : DataFrame Budget.row) (m : string) (r : Expense.row)
  (w : world) :
  In r (rows expense_summary) -> Expense.Month r = m ->
  where_month budget_check m = [] ->
  exists sel,
    misc_block expense_summary budget_check m w =
    (Ok tt,
     draw [Subheader "Miscellaneous Expenses"; Series sel;
           Metric "Total Miscellaneous Expenses (Month)"
             (Series_sum (List.map snd sel));
           Write "There are no miscellaneous expenses logged."] w).
Proof.
  intros Hin Hm Hnil.
  destruct (total_misc_expenses_ok expense_summary m r Hin Hm)
    as (sel & Hsel & Ht).
  exists sel. unfold misc_block, try_except.
  cbv [mbind App_bind lift]. rewrite Hsel, Ht, Hnil.
  screen_eq.
Qed.

(** The fixed block on a month that has fixed rows and no budget row. *)
Lemma fixed_block_no_budget_row (expense_summary : DataFrame Expense.row)
  (budget_check : DataFrame Budget.row) (m : string) (r : Expense.row)
  (w : world) :
  In r (rows expense_summary) -> Expense.Month r = m -> is_fixed r = true ->
  where_month budget_check m = [] ->
  exists sel,
    fixed_block expense_summary budget_check m w =
    (Raise IndexError,
     draw [Series sel;
           Metric "Total Fixed Expenses (Month)"
             (Series_sum (List.map snd sel))] w).
Proof.
  intros Hin Hm Hf Hnil.
  destruct (total_fixed_expenses_ok expense_summary m r Hin Hm Hf)
    as (sel & Hsel & Ht).
  exists sel. unfold fixed_block, try_except.
  cbv [mbind App_bind lift]. rewrite Hsel, Ht, Hnil.
  screen_eq.
Qed.

(** The fixed block on a month without fixed rows: [KeyError], caught. *)
Lemma fixed_block_no_fixed_rows (expense_summary : DataFrame Expense.row)
  (budget_check : DataFrame Budget.row) (m : string) (w : world) :
  (forall r, In r (rows expense_summary) -> Expense.Month r = m ->
             is_fixed r = false) ->
  fixed_block expense_summary budget_check m w =
  (Ok tt, draw [Write "There are no fixed expenses logged."] w).
Proof.
  intros H. unfold fixed_block, try_except.
  cbv [mbind App_bind lift].
  rewrite (total_fixed_expenses_raises expense_summary m H). reflexivity.
Qed.

(** The fixed block with a budget row for the month: the first such row
    is compared with the total. *)
Lemma fixed_block_compares (expense_summary : DataFrame Expense.row)
  (budget_check : DataFrame Budget.row) (m : string) (r : Expense.row)
  (i : nat) (br : Budget.row) (rest : list (nat * Budget.row)) (w : world) :
  In r (rows expense_summary) -> Expense.Month r = m -> is_fixed r = true ->
  where_month budget_check m = (i, br) :: rest ->
  exists sel total,
    total_fixed_expenses expense_summary m = Ok total /\
    fixed_block expense_summary budget_check m w =
    (Ok tt,
     draw [Series sel;
           Metric "Total Fixed Expenses (Month)" total;
           if Qgt_bool total (Budget.Fixed_Expenses br)
           then Warning "FYI you are over the fixed expenses budget by $"
                  (total - Budget.Fixed_Expenses br)
           else Write "You are within the fixed expenses budget."] w).
Proof.
  intros Hin Hm Hf Hw.
  destruct (total_fixed_expenses_ok expense_summary m r Hin Hm Hf)
    as (sel & Hsel & Ht).
  exists sel, (Series_sum (List.map snd sel)). split; [exact Ht|].
  unfold fixed_block, try_except.
  cbv [mbind App_bind lift]. rewrite Hsel, Ht, Hw.
  cbn. destruct (Qgt_bool _ _); screen_eq.
Qed.

Lemma expense_summary_section_eq (select_month : string) (w : world) :
  exists w1,
    expense_summary_section select_month w =
    (let expense_summary :=
       {| columns := Expense.columns;
          rows := stored_rows (expense_file w) |} in
     let budget_check :=
       {| columns := Budget.columns;
          rows := stored_rows (budget_file w) |} in
     (misc_block expense_summary budget_check select_month;;
      st Divider;;
      st (Subheader "Fixed Expenses");;
      fixed_block expense_summary budget_check select_month) w1).
Proof.
  unfold expense_summary_section.
  cbv [mbind App_bind]. cbn [st].
  match goal with |- context [check_expense_exists ?w0] =>
    destruct (check_expense_exists_rows w0) as (w1 & H1 & Hb1 & He1);
    rewrite H1; cbn [budget_file expense_file] in Hb1, He1
  end.
  destruct (check_budget_exists_rows w1) as (w2 & H2 & Hb2 & He2).
  rewrite H2, Hb1. exists w2. reflexivity.
Qed.

(** C7 (fails on the code).  On a month that has an expense row in a
    fixed category and no Budget row, the summary ends in an [IndexError]
    that nothing catches: [.iloc[0]] on the empty selection raises it and
    the handler of the fixed block takes [KeyError] only. *)
Theorem missing_budget_row_raises (w : world) (select_month : string) :
  (exists r, In r (stored_rows (expense_file w)) /\
             Expense.Month r = select_month /\ is_fixed r = true) ->
  (forall r, In r (stored_rows (budget_file w)) ->
             Budget.Month r <> select_month) ->
  exists w', expense_summary_section select_month w = (Raise IndexError, w').
Proof.
  intros (r & Hin & Hm & Hf) Hb.
  destruct (expense_summary_section_eq select_month w) as (w1 & ->).
  cbv zeta.
  set (es := {| columns := Expense.columns;
                rows := stored_rows (expense_file w) |}).
  set (bc := {| columns := Budget.columns;
                rows := stored_rows (budget_file w) |}).
  assert (Hnil : where_month bc select_month = [])
    by (apply where_month_nil; exact Hb).
  cbv [mbind App_bind].
  destruct (misc_block_ok es bc select_month w1) as (w2 & ->).
  cbn [st].
  match goal with |- context [fixed_block es bc select_month ?w0] =>
    destruct (fixed_block_no_budget_row es bc select_month r w0 Hin Hm Hf Hnil)
      as (sel & ->)
  end.
  eauto.
Qed.

Lemma missing_budget_row_raises_witness :
  exists w',
    expense_summary_section "01/2024" rent_no_budget = (Raise IndexError, w').
Proof.
  apply missing_budget_row_raises.
  - exists (expense "01/2024" 1200 "Rent").
    split; [left; reflexivity | split; reflexivity].
  - intros r [].
Defined.

(** The same run, widget by widget. *)
Example rent_no_budget_screen :
  expense_summary_section "01/2024" rent_no_budget =
  (Raise IndexError,
   draw [Header "Expense Summary"; Subheader "Miscellaneous Expenses";
         Series [("Rent", 1200)];
         Metric "Total Miscellaneous Expenses (Month)" 1200;
         Write "There are no miscellaneous expenses logged."; Divider;
         Subheader "Fixed Expenses"; Series [("Rent", 1200)];
         Metric "Total Fixed Expenses (Month)" 1200] rent_no_budget).
Proof. vm_compute. reflexivity. Qed.

(** Where the month has no row in a fixed category, the same lack of a
    Budget row ends in the two messages. *)
Lemma missing_budget_row_no_fixed_rows (w : world) (select_month : string) :
  (forall r, In r (stored_rows (expense_file w)) ->
             Expense.Month r = select_month -> is_fixed r = false) ->
  exists w', expense_summary_section select_month w = (Ok tt, w').
Proof.
  intros Hnf.
  destruct (expense_summary_section_eq select_month w) as (w1 & ->).
  cbv zeta. cbv [mbind App_bind].
  match goal with |- context [misc_block ?es ?bc select_month w1] =>
    destruct (misc_block_ok es bc select_month w1) as (w2 & ->)
  end.
  cbn [st]. rewrite fixed_block_no_fixed_rows; [eauto | exact Hnf].
Qed.

(** C8 (fails on the code).  When the first row of the budget table is
    for another month, the miscellaneous comparison never happens,
    whatever Budget rows follow: [s[0]] looks for the row labelled 0, and
    the block ends on its message without a flag. *)
Theorem misc_comparison_skipped
  (expense_summary : DataFrame Expense.row)
  (budget_check : DataFrame Budget.row) (select_month : string)
  (r0 : Budget.row) (rest : list Budget.row) (r : Expense.row) (w : world) :
  rows budget_check = r0 :: rest ->
  Budget.Month r0 <> select_month ->
  In r (rows expense_summary) -> Expense.Month r = select_month ->
  exists sel total,
    total_misc_expenses expense_summary select_month = Ok total /\
    misc_block expense_summary budget_check select_month w =
    (Ok tt,
     draw [Subheader "Miscellaneous Expenses"; Series sel;
           Metric "Total Miscellaneous Expenses (Month)" total;
           Write "There are no miscellaneous expenses logged."] w).
Proof.
  intros Hrows Hne Hin Hm.
  destruct (total_misc_expenses_ok expense_summary select_month r Hin Hm)
    as (sel & Hsel & Ht).
  exists sel, (Series_sum (List.map snd sel)). split; [exact Ht|].
  unfold misc_block, try_except.
  cbv [mbind App_bind lift].
  rewrite Hsel, Ht, (Misc_Budget_label_0 budget_check select_month r0 rest Hrows).
  apply String.eqb_neq in Hne. rewrite Hne.
  screen_eq.
Qed.

Lemma misc_comparison_skipped_witness :
  In (budget_row "02/2024" 600 100) (rows two_budgets) /\
  exists sel total,
    total_misc_expenses february_dinner "02/2024" = Ok total /\
    misc_block february_dinner two_budgets "02/2024" fresh_world =
    (Ok tt,
     draw [Subheader "Miscellaneous Expenses"; Series sel;
           Metric "Total Miscellaneous Expenses (Month)" total;
           Write "There are no miscellaneous expenses logged."] fresh_world).
Proof.
  split; [right; left; reflexivity|].
  apply (misc_comparison_skipped february_dinner two_budgets "02/2024"
           (budget_row "01/2024" 600 500) [budget_row "02/2024" 600 100]
           (expense "02/2024" 300 "Dining Out")).
  - reflexivity.
  - discriminate.
  - left. reflexivity.
  - reflexivity.
Defined.

(** The same run with its figures: 300 spent against a budget of 100,
    and no flag. *)
Example february_dinner_screen :
  total_misc_expenses february_dinner "02/2024" = Ok 300 /\
  misc_block february_dinner two_budgets "02/2024" fresh_world =
  (Ok tt,
   draw [Subheader "Miscellaneous Expenses"; Series [("Dining Out", 300)];
         Metric "Total Miscellaneous Expenses (Month)" 300;
         Write "There are no miscellaneous expenses logged."] fresh_world).
Proof. split; vm_compute; reflexivity. Qed.

(** With the Budget row of the month on the first line the block does
    compare, and flags the overage. *)
Example february_dinner_first_row :
  misc_block february_dinner
    {| columns := Budget.columns; rows := [budget_row "02/2024" 600 100] |}
    "02/2024" fresh_world =
  (Ok tt,
   draw [Subheader "Miscellaneous Expenses"; Series [("Dining Out", 300)];
         Metric "Total Miscellaneous Expenses (Month)" 300;
         Warning "FYI you are over the miscellaneous spend budget by $" 200]
     fresh_world).
Proof. vm_compute. reflexivity. Qed.

(** The spec's worked check: a fixed budget of 600 and fixed expenses of
    650 in 01/2024 are flagged as over by 50. *)
Example fixed_over_by_50 :
  fixed_block
    {| columns := Expense.columns;
       rows := [expense "01/2024" 500 "Rent";
                expense "01/2024" 150 "Groceries"] |}
    {| columns := Budget.columns; rows := [budget_row "01/2024" 600 500] |}
    "01/2024" fresh_world =
  (Ok tt,
   draw [Series [("Groceries", 150); ("Rent", 500)];
         Metric "Total Fixed Expenses (Month)" 650;
         Warning "FYI you are over the fixed expenses budget by $" 50]
     fresh_world).
Proof. vm_compute. reflexivity. Qed.

(** ** Months in order *)

Lemma string_leb_false (s1 s2 : string) :
  String.leb s1 s2 = false -> String.leb s2 s1 = true.
Proof.
  intros H. destruct (String.leb_total s1 s2) as [H'|H']; congruence.
Qed.

Lemma insert_by_HdRel {A} (by_ : A -> string) (x a : A) (l : list A) :
  str_le by_ a x -> HdRel (str_le by_) a l ->
  HdRel (str_le by_) a (insert_by by_ x l).
Proof.
  intros Hax Hl. destruct l as [|y t]; simpl.
  - constructor. exact Hax.
  - destruct (String.leb (by_ x) (by_ y)); constructor.
    + exact Hax.
    + inversion Hl. assumption.
Qed.

Lemma insert_by_sorted {A} (by_ : A -> string) (x : A) (l : list A) :
  Sorted (str_le by_) l -> Sorted (str_le by_) (insert_by by_ x l).
Proof.
  induction l as [|y t IH]; simpl; intros Hs.
  - repeat constructor.
  - destruct (String.leb (by_ x) (by_ y)) eqn:Hxy.
    + constructor; [exact Hs|]. constructor. exact Hxy.
    + inversion Hs as [|? ? Ht Hhd]; subst.
      constructor; [apply IH; exact Ht|].
      apply insert_by_HdRel; [|exact Hhd].
      apply string_leb_false. exact Hxy.
Qed.

Lemma sort_values_sorted {A} (by_ : A -> string) (df : list A) :
  Sorted (str_le by_) (sort_values by_ df).
Proof.
  induction df as [|x t IH]; simpl.
  - constructor.
  - apply insert_by_sorted. exact IH.
Qed.

Lemma insert_by_perm {A} (by_ : A -> string) (x : A) (l : list A) :
  Permutation (x :: l) (insert_by by_ x l).
Proof.
  induction l as [|y t IH]; simpl.
  - reflexivity.
  - destruct (String.leb (by_ x) (by_ y)).
    + reflexivity.
    + etransitivity; [apply perm_swap|]. apply perm_skip. exact IH.
Qed.

Lemma sort_values_perm {A} (by_ : A -> string) (df : list A) :
  Permutation df (sort_values by_ df).
Proof.
  induction df as [|x t IH]; simpl.
  - constructor.
  - etransitivity; [apply perm_skip; exact IH|]. apply insert_by_perm.
Qed.







(** The history page shows both tables sorted that way. *)
Example historical_data_order :
  historical_data
    {| budget_file :=
         Some (Csv [budget_row "02/2024" 600 500; budget_row "01/2025" 600 500]);
       expense_file :=
         Some (Csv [expense "02/2024" 1000 "Rent";
                    expense "01/2025" 1100 "Rent"]);
       screen := [] |}
  = (Ok tt,
     {| budget_file :=
          Some (Csv [budget_row "02/2024" 600 500;
                     budget_row "01/2025" 600 500]);
        expense_file :=
          Some (Csv [expense "02/2024" 1000 "Rent";
                     expense "01/2025" 1100 "Rent"]);
        screen :=
          [Title "Historical Data"; Header "Budget History";
           BudgetTable [budget_row "01/2025" 600 500;
                        budget_row "02/2024" 600 500];
           Header "Expense History";
           ExpenseTable [expense "01/2025" 1100 "Rent";
                         expense "02/2024" 1000 "Rent"]] |}).
Proof. vm_compute. reflexivity. Qed.

(** ** Percent change *)

Lemma lookup_key_notin (k : key) (seen : list (key * Q)) :
  ~ In k (List.map fst seen) -> lookup_key k seen = None.
Proof.
  intros H. unfold lookup_key. rewrite find_none_of; [reflexivity|].
  intros [k' v] Hin. simpl.
  destruct (key_eqb k' k) eqn:Heq; [|reflexivity].
  apply key_eqb_eq in Heq. subst k'. exfalso. apply H.
  apply in_map_iff. exists (k, v). auto.
Qed.

Lemma lookup_key_app (k : key) (l seen : list (key * Q)) :
  ~ In k (List.map fst l) -> lookup_key k (l ++ seen) = lookup_key k seen.
Proof.
  induction l as [|[k' v] t IH]; simpl; intros H; [reflexivity|].
  unfold lookup_key in *. simpl.
  destruct (key_eqb k' k) eqn:Heq.
  - apply key_eqb_eq in Heq. subst k'. exfalso. apply H. left. reflexivity.
  - apply IH. intros Hin. apply H. right. exact Hin.
Qed.

Lemma lookup_key_head (k : key) (p : Q) (seen : list (key * Q)) :
  lookup_key k ((k, p) :: seen) = Some p.
Proof.
  unfold lookup_key. simpl.
  rewrite (proj2 (key_eqb_eq k k) eq_refl). reflexivity.
Qed.

Lemma pct_change_from_app (seen l1 l2 : list (key * Q)) :
  pct_change_from seen (l1 ++ l2) =
  pct_change_from seen l1 ++ pct_change_from (rev l1 ++ seen) l2.
Proof.
  revert seen. induction l1 as [|[k x] t IH]; intros seen; simpl.
  - reflexivity.
  - rewrite IH, <- app_assoc. reflexivity.
Qed.

Lemma pct_change_from_length (seen l : list (key * Q)) :
  length (pct_change_from seen l) = length l.
Proof.
  revert seen. induction l as [|[k x] t IH]; intros seen; simpl; auto.
Qed.

Lemma In_keys_rev (k : key) (l : list (key * Q)) :
  In k (List.map fst (rev l)) <-> In k (List.map fst l).
Proof. rewrite map_rev, <- in_rev. reflexivity. Qed.

(** The change of the row at position [length l1], given what its group
    holds before it. *)
Lemma pct_change_at (l1 : list (key * Q)) (k : key) (x : Q)
  (l3 : list (key * Q)) :
  nth_error (pct_change (l1 ++ (k, x) :: l3)) (length l1) =
  Some (match lookup_key k (rev l1) with
        | Some prev => pct x prev
        | None => NaN
        end).
Proof.
  unfold pct_change. rewrite pct_change_from_app.
  rewrite nth_error_app2; rewrite pct_change_from_length; [|lia].
  rewrite Nat.sub_diag. simpl. rewrite app_nil_r. reflexivity.
Qed.

Lemma pct_nonzero (x prev : Q) : ~ prev == 0 -> pct x prev = Fin (x / prev - 1).
Proof.
  intros H. unfold pct.
  destruct (Qeq_bool prev 0) eqn:Hb; [|reflexivity].
  apply Qeq_bool_iff in Hb. contradiction.
Qed.

(** Where every group has one row, every change is [NaN]. *)
Lemma pct_change_from_singletons (seen grouped : list (key * Q)) :
  List.NoDup (List.map fst grouped) ->
  (forall k, In k (List.map fst grouped) -> ~ In k (List.map fst seen)) ->
  pct_change_from seen grouped = repeat NaN (length grouped).
Proof.
  revert seen. induction grouped as [|[k x] t IH]; intros seen Hnd Hs; simpl.
  - reflexivity.
  - inversion Hnd as [|? ? Hnotin Hnd']; subst.
    rewrite lookup_key_notin by (apply Hs; left; reflexivity).
    f_equal. apply IH; [exact Hnd'|].
    intros k' Hin [Heq|Hin']; simpl in *.
    + subst k'. contradiction.
    + apply (Hs k'); [right; exact Hin | exact Hin'].
Qed.

Lemma map_repeat {A B} (f : A -> B) (x : A) (n : nat) :
  List.map f (repeat x n) = repeat (f x) n.
Proof. induction n; simpl; congruence. Qed.

(** C9.  Percent change runs inside each (Month, Category) group of the
    table it is given: a row that is the first of its group gets 0; a row
    after another of its group gets x / prev - 1, the change (x - prev) /
    prev relative to the row just before it in that group (prev not 0).
    On the table of sums by (Month, Category) every group has one row,
    so every value of [Amount_PctChange] is 0. *)
Theorem percent_change_within_groups :
  (forall l1 k x l3,
     ~ In k (List.map fst l1) ->
     nth_error (Amount_PctChange (l1 ++ (k, x) :: l3)) (length l1)
     = Some (Fin 0)) /\
  (forall l1 k prev l2 x l3,
     ~ In k (List.map fst l2) -> ~ prev == 0 ->
     nth_error
       (Amount_PctChange (l1 ++ (k, prev) :: l2 ++ (k, x) :: l3))
       (length (l1 ++ (k, prev) :: l2))
     = Some (Fin (x / prev - 1)) /\
     x / prev - 1 == (x - prev) / prev) /\
  (forall finances_df,
     List.NoDup (List.map fst (grouped_finances finances_df)) /\
     Amount_PctChange (grouped_finances finances_df)
     = repeat (Fin 0) (length (grouped_finances finances_df))).
Proof.
  split; [|split].
  - intros l1 k x l3 Hnotin. unfold Amount_PctChange.
    rewrite nth_error_map, pct_change_at.
    rewrite lookup_key_notin by (rewrite In_keys_rev; exact Hnotin).
    reflexivity.
  - intros l1 k prev l2 x l3 Hnotin Hprev. split.
    + unfold Amount_PctChange.
      replace (l1 ++ (k, prev) :: l2 ++ (k, x) :: l3)
        with ((l1 ++ (k, prev) :: l2) ++ (k, x) :: l3)
        by (rewrite <- app_assoc; reflexivity).
      rewrite nth_error_map, pct_change_at.
      rewrite rev_app_distr. simpl. rewrite <- app_assoc. simpl.
      rewrite lookup_key_app by (rewrite In_keys_rev; exact Hnotin).
      rewrite lookup_key_head, pct_nonzero by exact Hprev.
      reflexivity.
    + field. exact Hprev.
  - intros finances_df. split.
    + apply groupby_NoDup.
    + unfold Amount_PctChange, pct_change.
      rewrite pct_change_from_singletons.
      * rewrite map_repeat. reflexivity.
      * apply groupby_NoDup.
      * intros k _ [].
Qed.

Lemma percent_change_within_groups_witness :
  nth_error
    (Amount_PctChange ([] ++ (rent_2024_01, 1000) :: [] ++
                       (rent_2024_01, 1100) :: [])) 0
  = Some (Fin 0) /\
  nth_error
    (Amount_PctChange ([] ++ (rent_2024_01, 1000) :: [] ++
                       (rent_2024_01, 1100) :: [])) 1
  = Some (Fin (1100 / 1000 - 1)) /\
  1100 / 1000 - 1 == 0.1 /\
  Amount_PctChange
    (grouped_finances [expense "01/2024" 1000 "Rent";
                       expense "02/2024" 1100 "Rent"])
  = [Fin 0; Fin 0].
Proof.
  destruct percent_change_within_groups as (Hfirst & Hnext & Hsums).
  split; [|split; [|split]].
  - apply (Hfirst [] rent_2024_01 1000 ([] ++ (rent_2024_01, 1100) :: [])).
    simpl. tauto.
  - apply (Hnext [] rent_2024_01 1000 [] 1100 []).
    + simpl. tauto.
    + vm_compute. discriminate.
  - vm_compute. reflexivity.
  - destruct (Hsums [expense "01/2024" 1000 "Rent";
                     expense "02/2024" 1100 "Rent"]) as [_ ->].
    vm_compute. reflexivity.
Defined.


(** * Further properties of the script *)

(** ** Loading and the two forms *)

(** X1.  The two loaders on the files of the model.  A missing file
    gives the empty table under the canonical columns and nothing is
    drawn; a file that cannot be parsed gives the same table and one
    error widget; a table under the canonical columns is handed back
    row for row and nothing is drawn.  In none of these cases is an
    exception raised or a file written. *)
Theorem loaders_never_raise (w : world) :
  ((budget_file w = None ->
    check_budget_exists w = (Ok (of_columns Budget.columns), w)) /\
   (budget_file w = Some Unparsable ->
    check_budget_exists w =
    (Ok (of_columns Budget.columns), draw [Error "Error reading CSV"] w)) /\
   (forall content,
      budget_file w = Some (Csv content) ->
      check_budget_exists w =
      (Ok {| columns := Budget.columns; rows := content |}, w))) /\
  ((expense_file w = None ->
    check_expense_exists w = (Ok (of_columns Expense.columns), w)) /\
   (expense_file w = Some Unparsable ->
    check_expense_exists w =
    (Ok (of_columns Expense.columns), draw [Error "Error reading CSV"] w)) /\
   (forall content,
      expense_file w = Some (Csv content) ->
      check_expense_exists w =
      (Ok {| columns := Expense.columns; rows := content |}, w))).
Proof.
  destruct w as [bf ef scr]. split.
  - rewrite check_budget_exists_eq. cbn [budget_file expense_file screen].
    split; [|split]; [intros -> | intros -> | intros content ->];
      reflexivity.
  - rewrite check_expense_exists_eq. cbn [budget_file expense_file screen].
    split; [|split]; [intros -> | intros -> | intros content ->];
      reflexivity.
Qed.

(** X2.  The expense form writes only on a submission with a date.  A
    run without pressing the button ends normally and leaves both files
    as they were, whatever was typed; a submission without a date stops
    on the name [month] (line 247), again with both files as they
    were. *)
Theorem expense_form_leaves_files
  (curr_date : option date) (amount : Q) (category : string)
  (scheduled : option string) (description : string) (w : world) :
  (exists w1,
     expense_form curr_date amount category scheduled description false w
       = (Ok tt, w1) /\
     expense_file w1 = expense_file w /\ budget_file w1 = budget_file w) /\
  (exists w1,
     expense_form None amount category scheduled description true w
       = (Raise (NameError "month"), w1) /\
     expense_file w1 = expense_file w /\ budget_file w1 = budget_file w).
Proof.
  split; [|apply expense_form_no_date].
  unfold expense_form.
  cbv [mbind App_bind]. cbn [st budget_file expense_file screen].
  rewrite check_expense_exists_eq; cbn [budget_file expense_file screen].
  destruct (expense_file w) as [[|ec]|] eqn:He;
    cbn [budget_file expense_file screen];
    rewrite check_budget_exists_eq; cbn [budget_file expense_file screen];
    destruct (budget_file w) as [[|bc]|] eqn:Hb;
    cbn [budget_file expense_file screen mret App_ret];
    eexists; (split; [reflexivity | split; cbn; congruence]).
Qed.




(** X4.  A run of the paycheck page without pressing the button, on an
    [expenses.csv] that is missing, cannot be parsed or holds a table
    under the canonical columns: it never raises and never writes, for
    every date and every input.  The screen is the page header, at most
    two error widgets of the loaders, and then the summary: the four
    savings metrics, the fixed allocation and what is left to spend,
    under their labels and in that order. *)
Theorem paycheck_form_not_submitted
  (saving1 saving2 saving3 : Q) (curr_date : option date) (paycheck : Q)
  (w : world) :
  (expense_file w = None \/ expense_file w = Some Unparsable \/
   exists content, expense_file w = Some (Csv content)) ->
  exists errors a v1 v2 v3 v4 v5 v6,
    paycheck_form saving1 saving2 saving3 curr_date paycheck false w =
    (Ok a,
     draw ([Header "Allocate my Paycheck"] ++ errors ++
           [Divider;
            Header "Expense Summary";
            Subheader "Savings Allocation";
            Metric "Savings Fund 1 ($):" v1;
            Metric "Savings Fund 2 ($):" v2;
            Metric "Savings Fund 3 ($):" v3;
            Metric "Total Saved ($):" v4;
            Divider;
            Subheader "Fixed Expenses";
            Metric "Total Allocation to Fixed Expenses ($):" v5;
            Divider;
            Subheader "Discretionary Spend";
            Metric "Total Left to Spend" v6]) w) /\
    Forall (fun x => x = Error "Error reading CSV") errors /\
    (length errors <= 2)%nat.
Proof.
  intros _.
  unfold paycheck_form. cbv beta iota zeta.
  cbv [mbind App_bind try_except]. cbn [st budget_file expense_file screen].
  rewrite check_budget_exists_eq; cbn [budget_file expense_file screen].
  destruct (budget_file w) as [[|bc]|] eqn:Hb;
    cbn [budget_file expense_file screen];
    rewrite check_expense_exists_eq; cbn [budget_file expense_file screen];
    destruct (expense_file w) as [[|ec]|] eqn:He;
    cbn [budget_file expense_file screen mret App_ret st stored_rows rows
         of_columns];
    unfold draw; rewrite Hb, He; rewrite <- ?app_assoc; cbn [app].
  - exists [Error "Error reading CSV"; Error "Error reading CSV"].
    do 7 eexists.
    split; [reflexivity|]. split; [repeat constructor | simpl; lia].
  - exists [Error "Error reading CSV"]. do 7 eexists.
    split; [reflexivity|]. split; [repeat constructor | simpl; lia].
  - exists [Error "Error reading CSV"]. do 7 eexists.
    split; [reflexivity|]. split; [repeat constructor | simpl; lia].
  - exists [Error "Error reading CSV"]. do 7 eexists.
    split; [reflexivity|]. split; [repeat constructor | simpl; lia].
  - exists []. do 7 eexists.
    split; [reflexivity|]. split; [constructor | simpl; lia].
  - exists []. do 7 eexists.
    split; [reflexivity|]. split; [constructor | simpl; lia].
  - exists [Error "Error reading CSV"]. do 7 eexists.
    split; [reflexivity|]. split; [repeat constructor | simpl; lia].
  - exists []. do 7 eexists.
    split; [reflexivity|]. split; [constructor | simpl; lia].
  - exists []. do 7 eexists.
    split; [reflexivity|]. split; [constructor | simpl; lia].
Qed.

Lemma paycheck_form_not_submitted_witness :
  exists errors a v1 v2 v3 v4 v5 v6,
    paycheck_form 0.2 0.15 0.10 None 2000 false rent_no_budget =
    (Ok a,
     draw ([Header "Allocate my Paycheck"] ++ errors ++
           [Divider;
            Header "Expense Summary";
            Subheader "Savings Allocation";
            Metric "Savings Fund 1 ($):" v1;
            Metric "Savings Fund 2 ($):" v2;
            Metric "Savings Fund 3 ($):" v3;
            Metric "Total Saved ($):" v4;
            Divider;
            Subheader "Fixed Expenses";
            Metric "Total Allocation to Fixed Expenses ($):" v5;
            Divider;
            Subheader "Discretionary Spend";
            Metric "Total Left to Spend" v6]) rent_no_budget) /\
    Forall (fun x => x = Error "Error reading CSV") errors /\
    (length errors <= 2)%nat.
Proof.
  apply (paycheck_form_not_submitted 0.2 0.15 0.10 None 2000 rent_no_budget).
  right. right. eexists. reflexivity.
Defined.

(** ** Allocation *)

Lemma Qmax_choice (x y : Q) : Qmax x y = x \/ Qmax x y = y.
Proof.
  unfold Qmax, GenericMinMax.gmax. destruct (x ?= y); auto.
Qed.

Lemma fold_Qmax_upper (t : list Q) (x : Q) :
  x <= fold_left Qmax t x /\ (forall y, In y t -> y <= fold_left Qmax t x).
Proof.
  revert x. induction t as [|z t IH]; intros x; simpl.
  - split; [apply Qle_refl | intros y []].
  - destruct (IH (Qmax x z)) as [H1 H2]. split.
    + eapply Qle_trans; [apply Q.le_max_l | exact H1].
    + intros y [<-|Hy].
      * eapply Qle_trans; [apply Q.le_max_r | exact H1].
      * apply H2. exact Hy.
Qed.

Lemma fold_Qmax_attained (t : list Q) (x : Q) :
  In (fold_left Qmax t x) (x :: t).
Proof.
  revert x. induction t as [|z t IH]; intros x; simpl.
  - left. reflexivity.
  - destruct (IH (Qmax x z)) as [H|H].
    + rewrite <- H. destruct (Qmax_choice x z) as [E|E]; rewrite E; auto.
    + right. right. exact H.
Qed.

(** X6.  The maximum statistic of a category is 0 when the history has
    no row of the category; otherwise it is the amount of one of the
    rows of the category and no row of the category has a larger
    amount. *)
Theorem category_max_is_greatest
  (expense_df : list Expense.row) (cat : string) :
  let X := where_category expense_df cat in
  ((forall r, In r expense_df -> Expense.Category r <> cat) ->
   max_if_not_empty X = 0) /\
  (forall r, In r expense_df -> Expense.Category r = cat ->
     Expense.Amount r <= max_if_not_empty X /\
     exists r', In r' expense_df /\ Expense.Category r' = cat /\
                Expense.Amount r' = max_if_not_empty X).
Proof.
  intros X. subst X. unfold max_if_not_empty, where_category. split.
  - intros H.
    replace (List.filter _ expense_df) with (@nil Expense.row);
      [reflexivity|].
    symmetry. apply filter_nil_iff. intros r Hin.
    apply String.eqb_neq. apply H. exact Hin.
  - intros r Hin Hcat.
    assert (HinX : In (Expense.Amount r)
              (List.map Expense.Amount
                 (List.filter
                    (fun r => String.eqb (Expense.Category r) cat) expense_df))).
    { apply in_map. apply filter_In. split; [exact Hin|].
      apply String.eqb_eq. exact Hcat. }
    destruct (List.map Expense.Amount (List.filter _ expense_df))
      as [|x t] eqn:Hm; [contradiction|].
    destruct (fold_Qmax_upper t x) as [Hx Ht]. split.
    + destruct HinX as [<-|HinX]; [exact Hx | apply Ht; exact HinX].
    + pose proof (fold_Qmax_attained t x) as Hat.
      rewrite <- Hm in Hat. apply in_map_iff in Hat.
      destruct Hat as (r' & Hr' & Hin').
      apply filter_In in Hin'. destruct Hin' as [Hin' Hc'].
      apply String.eqb_eq in Hc'. exists r'. auto.
Qed.

Lemma category_max_is_greatest_witness :
  Expense.Amount (expense "01/2024" 600 "Rent")
  <= max_if_not_empty
       (where_category
          [expense "01/2024" 600 "Rent"; expense "02/2024" 650 "Rent";
           expense "02/2024" 900 "Travel"] "Rent") /\
  max_if_not_empty
    (where_category
       [expense "01/2024" 600 "Rent"; expense "02/2024" 650 "Rent";
        expense "02/2024" 900 "Travel"] "Gas") = 0.
Proof.
  destruct (category_max_is_greatest
              [expense "01/2024" 600 "Rent"; expense "02/2024" 650 "Rent";
               expense "02/2024" 900 "Travel"] "Rent") as [_ Hmax].
  destruct (category_max_is_greatest
              [expense "01/2024" 600 "Rent"; expense "02/2024" 650 "Rent";
               expense "02/2024" 900 "Travel"] "Gas") as [Hzero _].
  split.
  - apply Hmax; [left; reflexivity | reflexivity].
  - apply Hzero. intros r [<-|[<-|[<-|[]]]]; discriminate.
Defined.

Lemma Series_sum_between (l : list Q) (lo hi : Q) :
  (forall x, In x l -> lo <= x <= hi) ->
  inject_Z (Z.of_nat (length l)) * lo <= Series_sum l
  <= inject_Z (Z.of_nat (length l)) * hi.
Proof.
  induction l as [|x t IH]; intros H.
  - simpl. rewrite Series_sum_nil. split; ring_simplify; apply Qle_refl.
  - assert (Hn : inject_Z (Z.of_nat (length (x :: t)))
                 == inject_Z (Z.of_nat (length t)) + 1).
    { cbn [length]. rewrite Nat2Z.inj_succ. unfold Z.succ.
      rewrite inject_Z_plus. reflexivity. }
    rewrite Series_sum_cons, Hn.
    destruct (H x (or_introl eq_refl)) as [Hlo Hhi].
    destruct IH as [IHlo IHhi]; [intros y Hy; apply H; right; exact Hy|].
    split; nra.
Qed.

(** X7.  The mean statistic of a category is 0 when the history has no
    row of the category.  Where the amounts of the category are whole
    dollars that add up without rounding, it lies between the least and
    the greatest of them: between the amounts of any two rows of the
    category that bound all the others. *)
Theorem category_mean_between
  (expense_df : list Expense.row) (cat : string) (least greatest : Expense.row) :
  let X := where_category expense_df cat in
  ((forall r, In r expense_df -> Expense.Category r <> cat) ->
   mean_if_not_empty X = 0) /\
  (adds_exactly (List.map Expense.Amount X) ->
   In least X -> In greatest X ->
   (forall r, In r X ->
      Expense.Amount least <= Expense.Amount r <= Expense.Amount greatest) ->
   Expense.Amount least <= mean_if_not_empty X <= Expense.Amount greatest).
Proof.
  intros X. subst X. unfold mean_if_not_empty, where_category. split.
  - intros H.
    replace (List.filter _ expense_df) with (@nil Expense.row);
      [reflexivity|].
    symmetry. apply filter_nil_iff. intros r Hin.
    apply String.eqb_neq. apply H. exact Hin.
  - intros _ Hin0 _ Hb.
    assert (Hall : forall x,
              In x (List.map Expense.Amount
                      (List.filter
                         (fun r => String.eqb (Expense.Category r) cat)
                         expense_df)) ->
              Expense.Amount least <= x <= Expense.Amount greatest).
    { intros x Hx. apply in_map_iff in Hx. destruct Hx as (r & <- & Hr).
      apply Hb. exact Hr. }
    apply Series_sum_between in Hall. rewrite length_map in Hall.
    destruct (List.filter _ expense_df) as [|r1 X] eqn:HX; [contradiction|].
    set (n := inject_Z (Z.of_nat (length (r1 :: X)))) in *.
    assert (Hn : 0 < n).
    { subst n. change 0 with (inject_Z 0). rewrite <- Zlt_Qlt.
      cbn [length]. lia. }
    destruct Hall as [Hlo Hhi]. split.
    + apply Qle_shift_div_l; [exact Hn|]. rewrite Qmult_comm. exact Hlo.
    + apply Qle_shift_div_r; [exact Hn|]. rewrite Qmult_comm. exact Hhi.
Qed.

Lemma category_mean_between_witness :
  100 <= mean_if_not_empty
           (where_category
              [expense "01/2024" 100 "Groceries";
               expense "02/2024" 140 "Groceries";
               expense "02/2024" 900 "Travel"] "Groceries") <= 140.
Proof.
  destruct (category_mean_between
              [expense "01/2024" 100 "Groceries";
               expense "02/2024" 140 "Groceries";
               expense "02/2024" 900 "Travel"] "Groceries"
              (expense "01/2024" 100 "Groceries")
              (expense "02/2024" 140 "Groceries"))
    as [_ H].
  apply H.
  - split.
    + repeat constructor; [exists 100%Z | exists 140%Z]; reflexivity.
    + vm_compute. discriminate.
  - left. reflexivity.
  - right. left. reflexivity.
  - intros r [<-|[<-|[]]]; split; vm_compute; discriminate.
Defined.

Lemma where_category_map (g : Expense.row -> Expense.row)
  (expense_df : list Expense.row) (cat : string) :
  (forall r, Expense.Category (g r) = Expense.Category r) ->
  where_category (List.map g expense_df) cat
  = List.map g (where_category expense_df cat).
Proof.
  intros Hg. unfold where_category.
  induction expense_df as [|r t IH]; simpl; [reflexivity|].
  rewrite Hg. destruct (String.eqb (Expense.Category r) cat); simpl;
    rewrite IH; reflexivity.
Qed.

Lemma where_category_skip (df1 df2 : list Expense.row) (r : Expense.row)
  (cat : string) :
  Expense.Category r <> cat ->
  where_category (df1 ++ r :: df2) cat = where_category (df1 ++ df2) cat.
Proof.
  intros H. unfold where_category. rewrite !List.filter_app. simpl.
  apply String.eqb_neq in H. rewrite H. reflexivity.
Qed.

Lemma max_if_not_empty_map (g : Expense.row -> Expense.row)
  (X : list Expense.row) :
  (forall r, Expense.Amount (g r) = Expense.Amount r) ->
  max_if_not_empty (List.map g X) = max_if_not_empty X.
Proof.
  intros Hg. unfold max_if_not_empty. rewrite List.map_map.
  rewrite (map_ext _ Expense.Amount) by exact Hg. reflexivity.
Qed.

Lemma mean_if_not_empty_map (g : Expense.row -> Expense.row)
  (X : list Expense.row) :
  (forall r, Expense.Amount (g r) = Expense.Amount r) ->
  mean_if_not_empty (List.map g X) = mean_if_not_empty X.
Proof.
  intros Hg. unfold mean_if_not_empty.
  destruct X as [|r t]; [reflexivity|].
  cbn [List.map length]. rewrite List.map_map, Hg, length_map.
  rewrite (map_ext _ Expense.Amount) by exact Hg.
  reflexivity.
Qed.

(** X8.  The statistics behind the fixed budget look at Category and
    Amount only, over the whole history: rewriting the month, the
    planned flag or the description of rows changes none of them, and
    neither does a row whose category is not one of the seven. *)
Theorem statistics_depend_on_category_and_amount :
  (forall (g : Expense.row -> Expense.row) expense_df,
     (forall r, Expense.Category (g r) = Expense.Category r /\
                Expense.Amount (g r) = Expense.Amount r) ->
     expense_statistics (List.map g expense_df)
     = expense_statistics expense_df) /\
  (forall df1 r df2,
     is_fixed r = false ->
     expense_statistics (df1 ++ r :: df2) = expense_statistics (df1 ++ df2)).
Proof.
  split.
  - intros g df Hg. unfold expense_statistics.
    rewrite !where_category_map by (intros r; apply Hg).
    rewrite !max_if_not_empty_map by (intros r; apply Hg).
    rewrite !mean_if_not_empty_map by (intros r; apply Hg).
    reflexivity.
  - intros df1 r df2 Hr. unfold expense_statistics.
    unfold is_fixed, fixed_categories in Hr. cbn [existsb] in Hr.
    repeat (apply orb_false_iff in Hr; destruct Hr as [?H Hr]).
    repeat match goal with
           | H : String.eqb _ _ = false |- _ => apply String.eqb_neq in H
           end.
    rewrite !where_category_skip by assumption.
    reflexivity.
Qed.

Lemma statistics_depend_on_category_and_amount_witness :
  expense_statistics (List.map in_december history_600)
    = expense_statistics history_600 /\
  expense_statistics ([] ++ expense "01/2024" 75 "Travel" :: history_600)
    = expense_statistics ([] ++ history_600).
Proof.
  destruct statistics_depend_on_category_and_amount as [Hmap Hskip].
  split.
  - apply Hmap. intros r. split; reflexivity.
  - apply Hskip. reflexivity.
Defined.

(** ** Sums by month and category *)

Lemma sum_where_none (P : key -> bool) (g : list (key * Q)) :
  (forall k, In k (List.map fst g) -> P k = false) -> sum_where P g == 0.
Proof.
  intros H. unfold sum_where.
  replace (List.filter _ g) with (@nil (key * Q)); [reflexivity|].
  symmetry. apply filter_nil_iff. intros [k v] Hin. simpl.
  apply H. apply in_map_iff. exists (k, v). auto.
Qed.

Lemma key_eqb_neq (k1 k2 : key) : key_eqb k1 k2 = false <-> k1 <> k2.
Proof.
  rewrite <- key_eqb_eq. destruct (key_eqb k1 k2); split; congruence.
Qed.

Lemma sum_where_single (g : list (key * Q)) (k : key) (v : Q) :
  List.NoDup (List.map fst g) -> In (k, v) g ->
  sum_where (fun k' => key_eqb k' k) g == v.
Proof.
  induction g as [|[k1 v1] t IH]; intros Hnd Hin; [contradiction|].
  simpl in Hnd. inversion Hnd as [|? ? Hnotin Hnd']; subst.
  rewrite sum_where_cons. destruct Hin as [Heq|Hin].
  - inversion Heq; subst.
    rewrite (proj2 (key_eqb_eq k k) eq_refl).
    rewrite sum_where_none; [ring|].
    intros k' Hk'. apply key_eqb_neq. intros ->. contradiction.
  - assert (Hne : k1 <> k).
    { intros ->. apply Hnotin. apply in_map_iff. exists (k, v). auto. }
    apply key_eqb_neq in Hne. rewrite Hne, (IH Hnd' Hin). ring.
Qed.

Lemma groupby_value (data : list Expense.row) (k : key) (v : Q) :
  In (k, v) (groupby_sum data) -> v == key_total data k.
Proof.
  intros Hin.
  rewrite <- (sum_where_single (groupby_sum data) k v (groupby_NoDup data) Hin).
  apply sum_where_groupby.
Qed.

(** X9.  Summing by (Month, Category) gives one group for each pair that
    occurs in the rows and for no other, in strictly increasing key
    order, and the sum of a group is the sum of the amounts of the rows
    of its pair. *)
Theorem groupby_sum_per_key (data : list Expense.row) :
  StronglySorted key_lt (List.map fst (groupby_sum data)) /\
  List.NoDup (List.map fst (groupby_sum data)) /\
  (forall k, In k (List.map fst (groupby_sum data)) <->
             In k (List.map key_of data)) /\
  (forall k v, In (k, v) (groupby_sum data) -> v == key_total data k).
Proof.
  split; [apply groupby_sorted|].
  split; [apply groupby_NoDup|].
  split; [intros k; apply In_groupby|].
  apply groupby_value.
Qed.

Lemma Series_sum_perm (l l' : list Q) :
  Permutation l l' -> Series_sum l == Series_sum l'.
Proof.
  induction 1 as [|x l l' _ IH|x y l|l l' l'' _ IH1 _ IH2].
  - reflexivity.
  - rewrite !Series_sum_cons, IH. reflexivity.
  - rewrite !Series_sum_cons. ring.
  - rewrite IH1. exact IH2.
Qed.

Lemma filter_perm {A} (f : A -> bool) (l l' : list A) :
  Permutation l l' -> Permutation (List.filter f l) (List.filter f l').
Proof.
  induction 1 as [|x l l' _ IH|x y l|l l' l'' _ IH1 _ IH2]; simpl.
  - constructor.
  - destruct (f x); [apply perm_skip|]; exact IH.
  - destruct (f x), (f y); try reflexivity. apply perm_swap.
  - etransitivity; eassumption.
Qed.

Lemma key_total_perm (data data' : list Expense.row) (k : key) :
  Permutation data data' -> key_total data k == key_total data' k.
Proof.
  intros H. unfold key_total. apply Series_sum_perm.
  apply Permutation_map. apply filter_perm. exact H.
Qed.

Section StrictlySorted.

Variable A : Type.
Variable lt : A -> A -> Prop.
Hypothesis lt_irrefl : forall x, ~ lt x x.
Hypothesis lt_trans : forall x y z, lt x y -> lt y z -> lt x z.

(** A strictly sorted list is determined by its elements. *)
Lemma strictly_sorted_unique (l1 l2 : list A) :
  StronglySorted lt l1 -> StronglySorted lt l2 ->
  (forall k, In k l1 <-> In k l2) -> l1 = l2.
Proof.
  intros H1. revert l2.
  induction H1 as [|a t1 Hs1 IH Ha]; intros l2 H2 Hiff.
  - destruct l2 as [|b0 t2]; [reflexivity|].
    destruct (proj2 (Hiff b0) (or_introl eq_refl)).
  - destruct H2 as [|b0 t2 Hs2 Hb].
    + destruct (proj1 (Hiff a) (or_introl eq_refl)).
    + rewrite List.Forall_forall in Ha, Hb.
      assert (Hab : a = b0).
      { destruct (proj1 (Hiff a) (or_introl eq_refl)) as [E|Hin]; [auto|].
        destruct (proj2 (Hiff b0) (or_introl eq_refl)) as [E|Hin']; [auto|].
        exfalso. apply (lt_irrefl a).
        eapply lt_trans; [apply Ha; exact Hin' | apply Hb; exact Hin]. }
      subst b0. f_equal. apply IH; [exact Hs2|].
      intros k. split; intros Hk.
      * destruct (proj1 (Hiff k) (or_intror Hk)) as [E|Hin]; [|exact Hin].
        subst k. exfalso. exact (lt_irrefl a (Ha a Hk)).
      * destruct (proj2 (Hiff k) (or_intror Hk)) as [E|Hin]; [|exact Hin].
        subst k. exfalso. exact (lt_irrefl a (Hb a Hk)).
Qed.

End StrictlySorted.

Lemma sorted_keys_unique (l1 l2 : list key) :
  StronglySorted key_lt l1 -> StronglySorted key_lt l2 ->
  (forall k, In k l1 <-> In k l2) -> l1 = l2.
Proof.
  apply strictly_sorted_unique; [exact key_lt_irrefl | exact key_lt_trans].
Qed.

Lemma same_groups_of_keys (g1 g2 : list (key * Q)) :
  List.map fst g1 = List.map fst g2 ->
  (forall k v1 v2, In (k, v1) g1 -> In (k, v2) g2 -> v1 == v2) ->
  same_groups g1 g2.
Proof.
  unfold same_groups. revert g2.
  induction g1 as [|[k1 v1] t1 IH]; intros [|[k2 v2] t2] Hk Hv;
    try discriminate Hk; [constructor|].
  simpl in Hk. inversion Hk; subst. constructor.
  - simpl. split; [reflexivity|].
    apply (Hv k2); left; reflexivity.
  - apply IH; [assumption|].
    intros k v v' Hin Hin'. apply (Hv k); right; assumption.
Qed.

(** X10.  For amounts in whole dollars that add up without rounding,
    the order of the rows does not matter to the sums by (Month,
    Category): two frames with the same rows give the same groups with
    equal sums.  So for such amounts sorting the frame by Month before
    grouping (line 87) changes no group and no sum. *)
Theorem groupby_sum_order_irrelevant :
  (forall data data',
     adds_exactly (List.map Expense.Amount data) ->
     Permutation data data' ->
     same_groups (groupby_sum data) (groupby_sum data')) /\
  (forall finances_df,
     adds_exactly (List.map Expense.Amount finances_df) ->
     same_groups (grouped_finances finances_df) (groupby_sum finances_df)).
Proof.
  assert (H : forall data data',
     Permutation data data' ->
     same_groups (groupby_sum data) (groupby_sum data')).
  { intros data data' Hp. apply same_groups_of_keys.
    - apply sorted_keys_unique; try apply groupby_sorted.
      intros k. rewrite !In_groupby. split; intros Hin.
      + eapply Permutation_in; [apply Permutation_map; exact Hp | exact Hin].
      + eapply Permutation_in;
          [apply Permutation_map, Permutation_sym; exact Hp | exact Hin].
    - intros k v1 v2 H1 H2.
      rewrite (groupby_value _ _ _ H1), (groupby_value _ _ _ H2).
      apply key_total_perm. exact Hp. }
  split; [intros data data' _; apply H|].
  intros df _. unfold grouped_finances. apply H.
  apply Permutation_sym, sort_values_perm.
Qed.

Lemma groupby_sum_order_irrelevant_witness :
  same_groups
    (groupby_sum [expense "02/2024" 40 "Gas"; expense "01/2024" 600 "Rent";
                  expense "02/2024" 15 "Gas"])
    (groupby_sum [expense "01/2024" 600 "Rent"; expense "02/2024" 15 "Gas";
                  expense "02/2024" 40 "Gas"]).
Proof.
  destruct groupby_sum_order_irrelevant as [H _]. apply H.
  - split.
    + repeat constructor; [exists 40%Z | exists 600%Z | exists 15%Z];
        reflexivity.
    + vm_compute. discriminate.
  - apply perm_trans with
      (l' := [expense "01/2024" 600 "Rent"; expense "02/2024" 40 "Gas";
              expense "02/2024" 15 "Gas"]).
    + apply perm_swap.
    + apply perm_skip. apply perm_swap.
Defined.

(** ** Trend charts *)

Lemma NoDup_keys_filter (p : key * Q -> bool) (g : list (key * Q)) :
  List.NoDup (List.map fst g) -> List.NoDup (List.map fst (List.filter p g)).
Proof.
  induction g as [|kv t IH]; simpl; intros H; [constructor|].
  inversion H as [|? ? Hnotin Hnd]; subst.
  destruct (p kv); simpl; [|apply IH; exact Hnd].
  constructor; [|apply IH; exact Hnd].
  intros Hin. apply Hnotin. apply in_map_iff in Hin.
  destruct Hin as (kv' & Hk & Hin'). apply filter_In in Hin'.
  apply in_map_iff. exists kv'. tauto.
Qed.

Lemma NoDup_months_of_category (cat : string) (g : list (key * Q)) :
  List.NoDup (List.map fst g) ->
  (forall kv, In kv g -> snd (fst kv) = cat) ->
  List.NoDup (List.map (fun kv : key * Q => fst (fst kv)) g).
Proof.
  induction g as [|kv t IH]; simpl; intros H Hc; [constructor|].
  inversion H as [|? ? Hnotin Hnd]; subst.
  constructor; [|apply IH; [exact Hnd | intros; apply Hc; right; assumption]].
  intros Hin. apply Hnotin. apply in_map_iff in Hin.
  destruct Hin as (kv' & Hm & Hin'). apply in_map_iff. exists kv'.
  split; [|exact Hin'].
  pose proof (Hc kv (or_introl eq_refl)) as H1.
  pose proof (Hc kv' (or_intror Hin')) as H2.
  destruct kv as [[m c] v], kv' as [[m' c'] v']. simpl in *. congruence.
Qed.

Lemma In_time_plot_points (data : list Expense.row) (cat m : string) (v : Q) :
  In (m, v) (time_plot_points data cat) <->
  In ((m, cat), v) (groupby_sum data).
Proof.
  unfold time_plot_points. rewrite in_map_iff. split.
  - intros ([[m' c] v'] & Heq & Hin). simpl in Heq. inversion Heq; subst.
    apply (Permutation_in _ (Permutation_sym (sort_values_perm _ _))) in Hin.
    apply filter_In in Hin. destruct Hin as [Hin Hc]. simpl in Hc.
    apply String.eqb_eq in Hc. subst c. exact Hin.
  - intros Hin. exists ((m, cat), v). split; [reflexivity|].
    apply (Permutation_in _ (sort_values_perm _ _)).
    apply filter_In. split; [exact Hin|]. simpl. apply String.eqb_refl.
Qed.

(** X11.  A trend chart has one point for each month in which the
    category has a row and no other point; no month comes twice; the
    value of a point is the sum of the amounts of the category in that
    month.  A category without rows gives a chart without points. *)
Theorem time_plot_points_per_month (data : list Expense.row) (cat : string) :
  List.NoDup (List.map fst (time_plot_points data cat)) /\
  (forall m, In m (List.map fst (time_plot_points data cat)) <->
             exists r, In r data /\ Expense.Month r = m /\
                       Expense.Category r = cat) /\
  (forall m v, In (m, v) (time_plot_points data cat) ->
               v == key_total data (m, cat)) /\
  ((forall r, In r data -> Expense.Category r <> cat) ->
   time_plot_points data cat = []).
Proof.
  assert (Hmonths : forall m,
            In m (List.map fst (time_plot_points data cat)) <->
            exists r, In r data /\ Expense.Month r = m /\
                      Expense.Category r = cat).
  { intros m. rewrite in_map_iff. split.
    - intros ([m' v] & Hm & Hin). simpl in Hm. subst m'.
      apply In_time_plot_points in Hin.
      assert (Hk : In (m, cat) (List.map fst (groupby_sum data)))
        by (apply in_map_iff; exists ((m, cat), v); auto).
      apply In_groupby in Hk. apply in_map_iff in Hk.
      destruct Hk as (r & Hr & Hin'). exists r. unfold key_of in Hr.
      inversion Hr. auto.
    - intros (r & Hin & Hm & Hc).
      assert (Hk : In (m, cat) (List.map fst (groupby_sum data))).
      { apply In_groupby. apply in_map_iff. exists r.
        unfold key_of. rewrite Hm, Hc. auto. }
      apply in_map_iff in Hk. destruct Hk as ([k v] & Hk & Hin').
      simpl in Hk. subst k. exists (m, v). split; [reflexivity|].
      apply In_time_plot_points. exact Hin'. }
  split; [|split; [exact Hmonths|split]].
  - unfold time_plot_points. rewrite List.map_map. cbn [fst].
    eapply Permutation_NoDup;
      [apply Permutation_map; apply sort_values_perm|].
    apply (NoDup_months_of_category cat).
    + apply NoDup_keys_filter. apply groupby_NoDup.
    + intros kv Hin. apply filter_In in Hin. destruct Hin as [_ Hc].
      apply String.eqb_eq in Hc. exact Hc.
  - intros m v Hin. apply In_time_plot_points in Hin.
    apply groupby_value. exact Hin.
  - intros Hnone.
    destruct (time_plot_points data cat) as [|[m v] t] eqn:Hp; [reflexivity|].
    exfalso.
    destruct (proj1 (Hmonths m)) as (r & Hin & _ & Hc).
    + left. reflexivity.
    + exact (Hnone r Hin Hc).
Qed.

Lemma time_plot_points_per_month_witness :
  time_plot_points
    [expense "01/2024" 600 "Rent"; expense "02/2024" 40 "Gas"] "Travel" = [].
Proof.
  destruct (time_plot_points_per_month
              [expense "01/2024" 600 "Rent"; expense "02/2024" 40 "Gas"]
              "Travel") as (_ & _ & _ & H).
  apply H. intros r [<-|[<-|[]]]; discriminate.
Defined.

(** ** History page *)

(** X12.  The history page reads both files without checking that they
    exist.  If [budget.csv] is missing it raises [FileNotFoundError]
    after the first header; if [budget.csv] holds a table and
    [expenses.csv] is missing it raises after it has shown the budget
    table.  Nothing catches the exception. *)
Theorem historical_data_missing_file (w : world) :
  (budget_file w = None ->
   historical_data w =
   (Raise FileNotFoundError,
    draw [Title "Historical Data"; Header "Budget History"] w)) /\
  (forall content,
     budget_file w = Some (Csv content) -> expense_file w = None ->
     historical_data w =
     (Raise FileNotFoundError,
      draw [Title "Historical Data"; Header "Budget History";
            BudgetTable (sort_values Budget.Month content);
            Header "Expense History"] w)).
Proof.
  destruct w as [bf ef scr]. cbn [budget_file expense_file]. split.
  - intros ->. unfold historical_data, create_dataframe, read_csv, draw.
    cbv [mbind App_bind]. cbn. rewrite <- app_assoc. reflexivity.
  - intros content -> ->.
    unfold historical_data, create_dataframe, read_csv, draw.
    cbv [mbind App_bind]. cbn. rewrite <- !app_assoc. reflexivity.
Qed.

Lemma historical_data_missing_file_witness :
  historical_data fresh_world =
  (Raise FileNotFoundError,
   draw [Title "Historical Data"; Header "Budget History"] fresh_world).
Proof.
  destruct (historical_data_missing_file fresh_world) as [H _].
  apply H. reflexivity.
Defined.

(** X13.  When both files hold tables, the history page shows each of
    them whole: every stored row once, none added, ordered by the Month
    string; it raises nothing and writes nothing. *)
Theorem historical_data_shows_all_rows
  (w : world) (budget : list Budget.row) (expenses : list Expense.row) :
  budget_file w = Some (Csv budget) ->
  expense_file w = Some (Csv expenses) ->
  exists b_history e_history,
    historical_data w =
    (Ok tt,
     draw [Title "Historical Data"; Header "Budget History";
           BudgetTable b_history;
           Header "Expense History";
           ExpenseTable e_history] w) /\
    Permutation budget b_history /\
    Sorted (str_le Budget.Month) b_history /\
    Permutation expenses e_history /\
    Sorted (str_le Expense.Month) e_history.
Proof.
  destruct w as [bf ef scr]. cbn [budget_file expense_file].
  intros -> ->.
  exists (sort_values Budget.Month budget),
         (sort_values Expense.Month expenses).
  split; [|repeat split;
           first [apply sort_values_perm | apply sort_values_sorted]].
  unfold historical_data, create_dataframe, read_csv, draw.
  cbv [mbind App_bind]. cbn. unfold st. cbn.
  rewrite <- !app_assoc. reflexivity.
Qed.

Lemma historical_data_shows_all_rows_witness :
  exists b_history e_history,
    historical_data two_months_on_disk =
    (Ok tt,
     draw [Title "Historical Data"; Header "Budget History";
           BudgetTable b_history;
           Header "Expense History";
           ExpenseTable e_history] two_months_on_disk) /\
    Permutation
      [budget_row "02/2024" 600 500; budget_row "01/2025" 600 500] b_history /\
    Sorted (str_le Budget.Month) b_history /\
    Permutation
      [expense "02/2024" 1000 "Rent"; expense "01/2025" 1100 "Rent"]
      e_history /\
    Sorted (str_le Expense.Month) e_history.
Proof.
  apply (historical_data_shows_all_rows two_months_on_disk); reflexivity.
Defined.

(** ** Page "Finances at a Glance" *)

Lemma Amount_PctChange_grouped (finances_df : list Expense.row) :
  Amount_PctChange (grouped_finances finances_df)
  = repeat (Fin 0) (length (grouped_finances finances_df)).
Proof.
  unfold Amount_PctChange, pct_change.
  rewrite pct_change_from_singletons.
  - rewrite map_repeat. reflexivity.
  - apply groupby_NoDup.
  - intros k _ [].
Qed.

Lemma column_of_repeat {A B} (p : A -> bool) (x : B) (l : list A) :
  List.map snd
    (List.filter (fun row : A * B => p (fst row))
       (combine l (repeat x (length l))))
  = repeat x (length (List.filter p l)).
Proof.
  induction l as [|a t IH]; simpl; [reflexivity|].
  destruct (p a); simpl; rewrite IH; reflexivity.
Qed.

Lemma fold_float_add_zeros (n : nat) (a : Q) :
  exists total,
    fold_left float_add (repeat (Fin 0) n) (Fin a) = Fin total /\ total == a.
Proof.
  revert a. induction n as [|n IH]; intros a; simpl.
  - exists a. split; reflexivity.
  - destruct (IH (a + 0)) as (total & Hf & Ht).
    exists total. split; [exact Hf|]. rewrite Ht. ring.
Qed.

Lemma Series_mean_zeros (n : nat) :
  match n with
  | O => Series_mean (repeat (Fin 0) n) = NaN
  | S _ => exists q, Series_mean (repeat (Fin 0) n) = Fin q /\ q == 0
  end.
Proof.
  destruct n as [|n]; [reflexivity|].
  unfold Series_mean.
  assert (Hf : List.filter (fun x => negb (is_nan x)) (repeat (Fin 0) (S n))
               = repeat (Fin 0) (S n)).
  { generalize (S n). intros m. induction m; simpl; congruence. }
  rewrite Hf. cbn [repeat].
  change (Fin 0 :: repeat (Fin 0) n) with (repeat (Fin 0) (S n)).
  destruct (fold_float_add_zeros (S n) 0) as (total & -> & Ht).
  eexists. split; [reflexivity|].
  rewrite Ht. unfold Qdiv. ring.
Qed.

(** The mean percent change of a category: a zero where the category
    has a row, [NaN] where it has none. *)
Lemma mean_pct_change_grouped (finances_df : list Expense.row) (cat : string) :
  ((exists r, In r finances_df /\ Expense.Category r = cat) ->
   exists q, mean_pct_change (grouped_finances finances_df) cat = Fin q /\
             q == 0) /\
  ((forall r, In r finances_df -> Expense.Category r <> cat) ->
   mean_pct_change (grouped_finances finances_df) cat = NaN).
Proof.
  unfold mean_pct_change. rewrite Amount_PctChange_grouped.
  rewrite (column_of_repeat
             (fun kv : key * Q => String.eqb (snd (fst kv)) cat)).
  pose proof (Series_mean_zeros
    (length (List.filter
               (fun kv : key * Q => String.eqb (snd (fst kv)) cat)
               (grouped_finances finances_df)))) as Hmean.
  split.
  - intros (r & Hin & Hc).
    assert (Hk : In (key_of r)
                   (List.map fst (grouped_finances finances_df))).
    { unfold grouped_finances. apply In_groupby. apply in_map.
      eapply Permutation_in; [apply sort_values_perm | exact Hin]. }
    apply in_map_iff in Hk. destruct Hk as ([k v] & Hk & Hin').
    simpl in Hk. subst k.
    assert (Hf : In (key_of r, v)
                   (List.filter
                      (fun kv : key * Q => String.eqb (snd (fst kv)) cat)
                      (grouped_finances finances_df))).
    { apply filter_In. split; [exact Hin'|]. simpl.
      apply String.eqb_eq. exact Hc. }
    destruct (List.filter _ (grouped_finances finances_df)) as [|x t];
      [contradiction|].
    exact Hmean.
  - intros Hnone.
    replace (List.filter _ (grouped_finances finances_df))
      with (@nil (key * Q)) in *; [exact Hmean|].
    symmetry. apply filter_nil_iff. intros [k v] Hin. simpl.
    apply String.eqb_neq. intros Hc.
    assert (Hk : In k (List.map fst (grouped_finances finances_df)))
      by (apply in_map_iff; exists (k, v); auto).
    unfold grouped_finances in Hk. apply In_groupby in Hk.
    apply in_map_iff in Hk. destruct Hk as (r & Hr & Hin').
    apply (Permutation_in _ (Permutation_sym (sort_values_perm _ _))) in Hin'.
    apply (Hnone r Hin'). subst k. exact Hc.
Qed.

(** X14.  The three average-percent-change metrics are all computed
    from the rows of Rent and are always zero: where the expense table
    has a Rent row the section draws its three charts each followed by a
    metric of value 0 (the third again under the Rent label); where it
    has none it draws the three charts and no metric, whatever the rows
    of Utilities and Groceries. *)
Theorem change_by_month_metrics (finances_df : list Expense.row) (w : world) :
  let sorted := sort_values Expense.Month finances_df in
  let grouped := grouped_finances finances_df in
  ((exists r, In r finances_df /\ Expense.Category r = "Rent") ->
   exists v,
     v == 0 /\
     change_by_month sorted grouped w =
     (Ok tt,
      draw [Header "Change in Expense Category by Month";
            LineChart "Change in Rent Over Time"
              (time_plot_points sorted "Rent");
            Metric "Average Percent Change in Rent Over Time" v;
            LineChart "Change in Utilities Over Time"
              (time_plot_points sorted "Utilities");
            Metric "Average Percent Change in Utilities Over Time" v;
            LineChart "Change in Groceries Over Time"
              (time_plot_points sorted "Groceries");
            Metric "Average Percent Change in Rent Over Time" v] w)) /\
  ((forall r, In r finances_df -> Expense.Category r <> "Rent") ->
   change_by_month sorted grouped w =
   (Ok tt,
    draw [Header "Change in Expense Category by Month";
          LineChart "Change in Rent Over Time"
            (time_plot_points sorted "Rent");
          LineChart "Change in Utilities Over Time"
            (time_plot_points sorted "Utilities");
          LineChart "Change in Groceries Over Time"
            (time_plot_points sorted "Groceries")] w)).
Proof.
  intros sorted grouped. subst grouped.
  destruct (mean_pct_change_grouped finances_df "Rent") as [Hsome Hnone].
  unfold change_by_month, time_plot. cbv zeta. split.
  - intros Hrent. destruct (Hsome Hrent) as (q & -> & Hq).
    exists (q * 100). split; [rewrite Hq; ring|].
    unfold trend_metric. apply Qeq_bool_iff in Hq. rewrite Hq.
    cbv [mbind App_bind]. cbn [st budget_file expense_file screen].
    unfold st, draw. cbn [budget_file expense_file screen].
    rewrite <- !app_assoc. reflexivity.
  - intros Hno. rewrite (Hnone Hno). unfold trend_metric.
    cbv [mbind App_bind mret App_ret].
    cbn [st budget_file expense_file screen].
    unfold draw. rewrite <- !app_assoc. reflexivity.
Qed.

Lemma change_by_month_metrics_witness :
  change_by_month
    (sort_values Expense.Month
       [expense "01/2024" 90 "Utilities"; expense "02/2024" 120 "Utilities"])
    (grouped_finances
       [expense "01/2024" 90 "Utilities"; expense "02/2024" 120 "Utilities"])
    fresh_world =
  (Ok tt,
   draw [Header "Change in Expense Category by Month";
         LineChart "Change in Rent Over Time" [];
         LineChart "Change in Utilities Over Time"
           [("01/2024", 90); ("02/2024", 120)];
         LineChart "Change in Groceries Over Time" []] fresh_world).
Proof.
  destruct (change_by_month_metrics
              [expense "01/2024" 90 "Utilities";
               expense "02/2024" 120 "Utilities"] fresh_world) as [_ H].
  rewrite H.
  - reflexivity.
  - intros r [<-|[<-|[]]]; discriminate.
Defined.

Lemma st_then {A} (x : widget) (m : App A) (w : world) :
  (st x;; m) w = m (draw [x] w).
Proof. reflexivity. Qed.

Lemma try_except_any_ok {A} (body : App A) (handler : exn -> App A)
  (w : world) :
  (forall x w1, exists a w2, handler x w1 = (Ok a, w2)) ->
  exists a w', try_except body any_exception handler w = (Ok a, w').
Proof.
  intros H. unfold try_except, any_exception.
  destruct (body w) as [[a|x] w1]; [eauto | apply H].
Qed.

(** X15.  The page never raises, whatever is on disk, whichever month is
    selected and whatever the drawing of the pie and bar figures does:
    the outer handlers take every exception and answer with one error
    widget. *)
Theorem finances_at_a_glance_never_raises
  (plotly_chart : figure -> App unit) (month_select : string) (w : world) :
  exists w', finances_at_a_glance plotly_chart month_select w = (Ok tt, w').
Proof.
  unfold finances_at_a_glance. rewrite st_then.
  match goal with |- context [try_except ?body any_exception ?h ?w0] =>
    destruct (try_except_any_ok body h w0) as ([] & w' & ->) end.
  - intros x w1. destruct (is_FileNotFoundError x); unfold st; eauto.
  - eauto.
Qed.

Lemma change_by_month_draws (finances_df : list Expense.row)
  (grouped : list (key * Q)) (w : world) :
  exists ws, change_by_month finances_df grouped w = (Ok tt, draw ws w).
Proof.
  unfold change_by_month, time_plot, trend_metric. cbv zeta.
  cbv [mbind App_bind]. cbn [st budget_file expense_file screen].
  destruct (mean_pct_change grouped "Rent") as [q|neg|];
    [destruct (Qeq_bool q 0)|..];
    cbv [mret App_ret]; unfold st, draw;
    cbn [budget_file expense_file screen]; rewrite <- ?app_assoc;
    eexists; reflexivity.
Qed.

(** X16.  What the page makes of a missing file.  Without
    [expenses.csv] it shows its title and the message that [budget.csv]
    was not found, and nothing else; with an [expenses.csv] that cannot
    be parsed, the title and the other error widget.  Without
    [budget.csv], when [expenses.csv] holds a table and the drawing of
    figures leaves the budget file alone, no error is reported: the page
    ends on the header of the savings section and the words that there
    are no logged savings. *)
Theorem finances_at_a_glance_missing_files
  (plotly_chart : figure -> App unit) (month_select : string) (w : world) :
  (expense_file w = None ->
   finances_at_a_glance plotly_chart month_select w =
   (Ok tt,
    draw [Title "Finances at a Glance";
          Error "Error: budget.csv not found. Please upload or create a budget file."]
      w)) /\
  (expense_file w = Some Unparsable ->
   finances_at_a_glance plotly_chart month_select w =
   (Ok tt, draw [Title "Finances at a Glance"; Error "Error"] w)) /\
  (forall content,
     expense_file w = Some (Csv content) -> budget_file w = None ->
     (forall fig w0, budget_file (snd (plotly_chart fig w0)) = budget_file w0) ->
     exists w' shown,
       finances_at_a_glance plotly_chart month_select w = (Ok tt, w') /\
       screen w' = shown ++ [Header "Savings by Account Type";
                             Write "There are no logged savings."]).
Proof.
  destruct w as [bf ef scr]. cbn [budget_file expense_file].
  split; [|split].
  - intros ->. unfold finances_at_a_glance, create_dataframe, read_csv.
    rewrite st_then.
    unfold try_except at 1.
    cbv [mbind App_bind].
    cbn [at_path e draw expense_file budget_file screen].
    cbn [any_exception is_FileNotFoundError st budget_file expense_file screen].
    unfold st, draw. cbn [budget_file expense_file screen].
    rewrite <- ?app_assoc. reflexivity.
  - intros ->. unfold finances_at_a_glance, create_dataframe, read_csv.
    rewrite st_then. unfold try_except at 1. cbv [mbind App_bind].
    cbn [at_path e draw expense_file budget_file screen].
    cbn [any_exception is_FileNotFoundError st budget_file expense_file screen].
    unfold st, draw. cbn [budget_file expense_file screen].
    rewrite <- ?app_assoc. reflexivity.
  - intros content -> -> Hkeep.
    unfold finances_at_a_glance, create_dataframe, read_csv.
    rewrite st_then.
    unfold try_except at 1.
    cbv [mbind App_bind].
    cbn [at_path e draw expense_file budget_file screen mret App_ret rows].
    destruct (change_by_month_draws (sort_values Expense.Month content)
           (grouped_finances content)
           (draw [Title "Finances at a Glance"]
              {|
                budget_file := None;
                expense_file := Some (Csv content);
                screen := scr
              |})) as (ws & Hcm).
    rewrite Hcm.
    unfold st, draw. cbn [budget_file expense_file screen].
    unfold try_except at 1. unfold pie_chart.
    match goal with |- context [plotly_chart ?fig ?w0] =>
      pose proof (Hkeep fig w0) as Hb;
      destruct (plotly_chart fig w0) as [[[]|x] w1] end;
      cbn [snd budget_file] in Hb;
      cbn [budget_file expense_file screen any_exception];
      unfold try_except, bar_chart, read_csv;
      cbv [mbind App_bind];
      cbn [budget_file expense_file screen at_path b any_exception];
      rewrite Hb.
    all: do 2 eexists; (split; [reflexivity|]); cbn [screen];
      rewrite <- (app_assoc _ [Header "Savings by Account Type"]);
      reflexivity.
Qed.

Lemma finances_at_a_glance_missing_files_witness :
  finances_at_a_glance (fun _ => mret tt) "01/2024" fresh_world =
  (Ok tt,
   draw [Title "Finances at a Glance";
         Error "Error: budget.csv not found. Please upload or create a budget file."]
     fresh_world) /\
  exists w' shown,
    finances_at_a_glance (fun _ => mret tt) "01/2024" rent_no_budget
      = (Ok tt, w') /\
    screen w' = shown ++ [Header "Savings by Account Type";
                          Write "There are no logged savings."].
Proof.
  split.
  - destruct (finances_at_a_glance_missing_files (fun _ => mret tt)
                "01/2024" fresh_world) as (H & _ & _).
    apply H. reflexivity.
  - destruct (finances_at_a_glance_missing_files (fun _ => mret tt)
                "01/2024" rent_no_budget) as (_ & _ & H).
    apply (H [expense "01/2024" 1200 "Rent"]); reflexivity.
Defined.

Lemma NoDup_categories_of_month (m : string) (g : list (key * Q)) :
  List.NoDup (List.map fst g) ->
  (forall kv, In kv g -> fst (fst kv) = m) ->
  List.NoDup (List.map (fun kv : key * Q => snd (fst kv)) g).
Proof.
  induction g as [|kv t IH]; simpl; intros H Hc; [constructor|].
  inversion H as [|? ? Hnotin Hnd]; subst.
  constructor; [|apply IH; [exact Hnd | intros; apply Hc; right; assumption]].
  intros Hin. apply Hnotin. apply in_map_iff in Hin.
  destruct Hin as (kv' & Hm & Hin'). apply in_map_iff. exists kv'.
  split; [|exact Hin'].
  pose proof (Hc kv (or_introl eq_refl)) as H1.
  pose proof (Hc kv' (or_intror Hin')) as H2.
  destruct kv as [[m1 c] v], kv' as [[m' c'] v']. simpl in *. congruence.
Qed.

Lemma month_total_perm (data data' : list Expense.row) (m : string) :
  Permutation data data' -> month_total data m == month_total data' m.
Proof.
  intros H. unfold month_total. apply Series_sum_perm.
  apply Permutation_map. apply filter_perm. exact H.
Qed.

(** X17.  The pie of a month has one slice for each category that has a
    row in that month and no other slice, no category twice; a slice is
    the sum of the amounts of its category in the month; and the metric
    under the pie, the sum of the slices, is the sum of all the amounts
    of the month. *)
Theorem pie_of_month (finances_df : list Expense.row) (month_select : string) :
  let data := of_month (grouped_finances finances_df) month_select in
  List.NoDup (List.map fst (pie_slices data)) /\
  (forall c, In c (List.map fst (pie_slices data)) <->
             exists r, In r finances_df /\ Expense.Month r = month_select /\
                       Expense.Category r = c) /\
  (forall c v, In (c, v) (pie_slices data) ->
               v == key_total finances_df (month_select, c)) /\
  Series_sum (List.map snd data) == month_total finances_df month_select.
Proof.
  intros data. subst data.
  assert (Hperm : Permutation (sort_values Expense.Month finances_df)
                    finances_df)
    by (apply Permutation_sym, sort_values_perm).
  assert (Hslice : forall c v,
            In (c, v)
              (pie_slices (of_month (grouped_finances finances_df)
                             month_select)) <->
            In ((month_select, c), v) (grouped_finances finances_df)).
  { intros c v. unfold pie_slices, of_month. rewrite in_map_iff. split.
    - intros ([[m c'] v'] & Heq & Hin). simpl in Heq. inversion Heq; subst.
      apply filter_In in Hin. destruct Hin as [Hin Hm]. simpl in Hm.
      apply String.eqb_eq in Hm. subst m. exact Hin.
    - intros Hin. exists ((month_select, c), v). split; [reflexivity|].
      apply filter_In. split; [exact Hin|]. simpl. apply String.eqb_refl. }
  split; [|split; [|split]].
  - unfold pie_slices, of_month. rewrite List.map_map. cbn [fst].
    apply (NoDup_categories_of_month month_select).
    + apply NoDup_keys_filter. apply groupby_NoDup.
    + intros kv Hin. apply filter_In in Hin. destruct Hin as [_ Hm].
      apply String.eqb_eq in Hm. exact Hm.
  - intros c. rewrite in_map_iff. split.
    + intros ([c' v] & Hc & Hin). simpl in Hc. subst c'.
      apply Hslice in Hin.
      assert (Hk : In (month_select, c)
                     (List.map fst (grouped_finances finances_df)))
        by (apply in_map_iff; exists ((month_select, c), v); auto).
      unfold grouped_finances in Hk. apply In_groupby in Hk.
      apply in_map_iff in Hk. destruct Hk as (r & Hr & Hin').
      exists r. unfold key_of in Hr. inversion Hr.
      split; [|auto]. eapply Permutation_in; [exact Hperm | exact Hin'].
    + intros (r & Hin & Hm & Hc).
      assert (Hk : In (month_select, c)
                     (List.map fst (grouped_finances finances_df))).
      { unfold grouped_finances. apply In_groupby. apply in_map_iff.
        exists r. unfold key_of. rewrite Hm, Hc. split; [reflexivity|].
        eapply Permutation_in; [apply Permutation_sym; exact Hperm|exact Hin]. }
      apply in_map_iff in Hk. destruct Hk as ([k v] & Hk & Hin').
      simpl in Hk. subst k. exists (c, v). split; [reflexivity|].
      apply Hslice. exact Hin'.
  - intros c v Hin. apply Hslice in Hin.
    unfold grouped_finances in Hin.
    rewrite (groupby_value _ _ _ Hin). apply key_total_perm. exact Hperm.
  - unfold grouped_finances, of_month.
    pose proof (sum_where_groupby (month_is month_select)
                  (sort_values Expense.Month finances_df)) as Hs.
    unfold sum_where, month_is in Hs. rewrite Hs.
    apply (month_total_perm _ _ month_select Hperm).
Qed.

(** ** Savings chart *)

Lemma In_account_add (k0 : string) (v : Q) (g : list (string * Q))
  (k : string) :
  In k (List.map fst (account_add k0 v g)) <->
  k = k0 \/ In k (List.map fst g).
Proof.
  induction g as [|[k' v'] t IH]; simpl.
  - intuition.
  - destruct (String.compare k0 k') eqn:Hc; simpl.
    + apply String.compare_eq_iff in Hc. subst k'. intuition.
    + intuition.
    + rewrite IH. intuition.
Qed.

Lemma account_add_sorted (k : string) (v : Q) (g : list (string * Q)) :
  StronglySorted str_lt (List.map fst g) ->
  StronglySorted str_lt (List.map fst (account_add k v g)).
Proof.
  induction g as [|[k' v'] t IH]; simpl; intros Hs.
  - repeat constructor.
  - inversion Hs as [|? ? Ht Hall]; subst.
    destruct (String.compare k k') eqn:Hc; simpl.
    + constructor; assumption.
    + constructor; [assumption|].
      constructor; [exact Hc|].
      eapply List.Forall_impl; [|exact Hall].
      intros k2 H2. eapply string_compare_lt_trans; eassumption.
    + constructor; [apply IH; assumption|].
      apply List.Forall_forall. intros k2 Hin.
      apply In_account_add in Hin. destruct Hin as [->|Hin].
      * unfold str_lt. rewrite String.compare_antisym, Hc. reflexivity.
      * rewrite List.Forall_forall in Hall. apply Hall. exact Hin.
Qed.

Lemma account_add_total (P : string -> bool) (k : string) (v : Q)
  (g : list (string * Q)) :
  Series_sum (List.map snd
    (List.filter (fun kv : string * Q => P (fst kv)) (account_add k v g)))
  == Series_sum (List.map snd
       (List.filter (fun kv : string * Q => P (fst kv)) g))
     + (if P k then v else 0).
Proof.
  induction g as [|[k' v'] t IH]; simpl.
  - destruct (P k); simpl; rewrite ?Series_sum_cons, ?Series_sum_nil; ring.
  - destruct (String.compare k k') eqn:Hc; simpl.
    + apply String.compare_eq_iff in Hc. subst k'.
      destruct (P k); simpl; rewrite ?Series_sum_cons; ring.
    + destruct (P k), (P k'); simpl; rewrite ?Series_sum_cons; ring.
    + destruct (P k'); simpl; rewrite ?Series_sum_cons, IH; ring.
Qed.

Lemma groupby_account_fold (P : string -> bool)
  (df_melted : list (string * string * Q)) (g : list (string * Q)) :
  let G := fold_left
             (fun g (row : string * string * Q) =>
                account_add (snd (fst row)) (snd row) g) df_melted g in
  StronglySorted str_lt (List.map fst g) ->
  StronglySorted str_lt (List.map fst G) /\
  (forall k, In k (List.map fst G) <->
             In k (List.map (fun row : string * string * Q => snd (fst row))
                     df_melted) \/ In k (List.map fst g)) /\
  Series_sum (List.map snd
    (List.filter (fun kv : string * Q => P (fst kv)) G))
  == Series_sum (List.map snd
       (List.filter (fun kv : string * Q => P (fst kv)) g))
     + Series_sum (List.map snd
         (List.filter (fun row : string * string * Q => P (snd (fst row)))
            df_melted)).
Proof.
  revert g. induction df_melted as [|row t IH]; intros g G Hs; subst G; simpl.
  - split; [exact Hs|]. split; [intuition|]. rewrite Series_sum_nil. ring.
  - destruct (IH (account_add (snd (fst row)) (snd row) g)
                (account_add_sorted _ _ _ Hs)) as (H1 & H2 & H3).
    split; [exact H1|]. split.
    + intros k. rewrite H2, In_account_add. intuition.
    + rewrite H3, account_add_total.
      destruct (P (snd (fst row))); simpl; rewrite ?Series_sum_cons; ring.
Qed.

Lemma filter_map_account (name0 name : string) (get : Budget.row -> Q)
  (data : list Budget.row) :
  List.filter
    (fun row : string * string * Q => String.eqb (snd (fst row)) name0)
    (List.map (fun r => (Budget.Month r, name, get r)) data)
  = if String.eqb name name0
    then List.map (fun r => (Budget.Month r, name, get r)) data
    else [].
Proof.
  induction data as [|r t IH]; simpl.
  - destruct (String.eqb name name0); reflexivity.
  - rewrite IH. destruct (String.eqb name name0); reflexivity.
Qed.

Lemma melt_account (name0 : string) (data : list Budget.row) :
  List.filter
    (fun row : string * string * Q => String.eqb (snd (fst row)) name0)
    (melt data)
  = flat_map
      (fun column : string * (Budget.row -> Q) =>
         if String.eqb (fst column) name0
         then List.map (fun r => (Budget.Month r, fst column, snd column r))
                data
         else [])
      [("Paycheck", Budget.Paycheck); ("saving1", Budget.saving1);
       ("saving2", Budget.saving2); ("STS", Budget.STS);
       ("Total_Saved", Budget.Total_Saved);
       ("Fixed_Expenses", Budget.Fixed_Expenses);
       ("Misc_Budget", Budget.Misc_Budget)].
Proof.
  unfold melt. cbn [flat_map fst snd].
  rewrite !List.filter_app, !filter_map_account. reflexivity.
Qed.

Lemma melt_accounts (data : list Budget.row) (row : string * string * Q) :
  In row (melt data) ->
  In (snd (fst row))
    ["Paycheck"; "saving1"; "saving2"; "STS"; "Total_Saved"; "Fixed_Expenses";
     "Misc_Budget"].
Proof.
  unfold melt. cbn [flat_map fst snd]. rewrite !in_app_iff, !in_map_iff.
  intros H.
  repeat match goal with
         | H : _ \/ _ |- _ => destruct H as [H|H]
         | H : exists _, _ |- _ => destruct H as (r & <- & _)
         end; cbn; tauto.
Qed.

Lemma filter_ext_in {A} (f g : A -> bool) (l : list A) :
  (forall x, In x l -> f x = g x) -> List.filter f l = List.filter g l.
Proof.
  induction l as [|x t IH]; simpl; intros H; [reflexivity|].
  rewrite (H x (or_introl eq_refl)), IH; [reflexivity|].
  intros y Hy. apply H. right. exact Hy.
Qed.

(** The total of one account after the filter of line 41, as a sum over
    the budget rows. *)
Lemma bar_total (data : list Budget.row) (name : string)
  (get : Budget.row -> Q) :
  existsb (String.eqb name) ["saving1"; "saving2"; "saving3"; "Total Saved"]
    = true ->
  List.filter
    (fun row : string * string * Q => String.eqb (snd (fst row)) name)
    (melt data)
    = List.map (fun r => (Budget.Month r, name, get r)) data ->
  Series_sum (List.map snd
    (List.filter
       (fun row : string * string * Q => String.eqb (snd (fst row)) name)
       (List.filter
          (fun row : string * string * Q =>
             existsb (String.eqb (snd (fst row)))
               ["saving1"; "saving2"; "saving3"; "Total Saved"])
          (sort_values (fun row : string * string * Q => fst (fst row))
             (melt data)))))
  == Series_sum (List.map get data).
Proof.
  intros Hisin Hmelt. rewrite filter_twice.
  rewrite (filter_ext_in _
             (fun row : string * string * Q => String.eqb (snd (fst row)) name)).
  - rewrite (Series_sum_perm _
               (List.map snd
                  (List.filter
                     (fun row : string * string * Q =>
                        String.eqb (snd (fst row)) name) (melt data)))).
    + rewrite Hmelt, List.map_map. reflexivity.
    + apply Permutation_map, filter_perm, Permutation_sym, sort_values_perm.
  - intros row _. destruct (String.eqb (snd (fst row)) name) eqn:He;
      [|reflexivity].
    apply String.eqb_eq in He. rewrite He, Hisin. reflexivity.
Qed.

(** X18.  The savings chart has two bars when the budget table has rows:
    [saving1] and [saving2], each the total of its column.  The other
    two names the filter asks for, [saving3] and [Total Saved], are not
    columns of the table (its columns are [STS] and [Total_Saved]), so
    the third fund and the total saved never get a bar. *)
Theorem bar_chart_two_bars (data : list Budget.row) :
  data <> [] ->
  exists v1 v2,
    bar_chart_bars data = [("saving1", v1); ("saving2", v2)] /\
    v1 == Series_sum (List.map Budget.saving1 data) /\
    v2 == Series_sum (List.map Budget.saving2 data).
Proof.
  intros Hne. unfold bar_chart_bars. cbv zeta.
  set (X := sort_values (fun row : string * string * Q => fst (fst row))
              (melt data)).
  set (F := List.filter
              (fun row : string * string * Q =>
                 existsb (String.eqb (snd (fst row)))
                   ["saving1"; "saving2"; "saving3"; "Total Saved"]) X).
  assert (Hfold := fun P => groupby_account_fold P F []).
  unfold groupby_account.
  set (G := fold_left _ F []) in *.
  cbv zeta in Hfold.
  destruct (Hfold (fun _ => true) (SSorted_nil _)) as (Hsorted & Hkeys & _).
  assert (Hnames : List.map fst G = ["saving1"; "saving2"]).
  { apply (strictly_sorted_unique string str_lt).
    - intros x. unfold str_lt. rewrite string_compare_refl. discriminate.
    - intros x y z. apply string_compare_lt_trans.
    - exact Hsorted.
    - repeat constructor.
    - intros k. rewrite Hkeys. cbn [List.map In]. split.
      + intros [Hin|[]]. apply in_map_iff in Hin.
        destruct Hin as (row & <- & Hin). subst F.
        apply filter_In in Hin. destruct Hin as [Hin Hisin].
        apply (Permutation_in _ (Permutation_sym (sort_values_perm _ _)))
          in Hin.
        apply melt_accounts in Hin.
        cbn [In] in Hin.
        repeat match goal with
               | H : _ \/ _ |- _ => destruct H as [H|H]
               end; try contradiction;
          rewrite <- Hin in Hisin |- *; cbn in Hisin;
          try discriminate Hisin; tauto.
      + destruct data as [|r t]; [contradiction|].
        intros Hk. left. apply in_map_iff.
        assert (Hin : forall name get,
                  In (name, get)
                    [("saving1", Budget.saving1); ("saving2", Budget.saving2)] ->
                  In (Budget.Month r, name, get r) F).
        { intros name get Hng. subst F. apply filter_In. split.
          - apply (Permutation_in _ (sort_values_perm _ _)).
            unfold melt. cbn [flat_map fst snd List.map].
            cbn [In] in Hng.
            destruct Hng as [E|[E|[]]]; inversion E; subst;
              rewrite !in_app_iff; cbn [In]; tauto.
          - cbn [In] in Hng.
            destruct Hng as [E|[E|[]]]; inversion E; subst; reflexivity. }
        destruct Hk as [<-|[<-|[]]].
        * exists (Budget.Month r, "saving1", Budget.saving1 r).
          split; [reflexivity|]. apply Hin. left. reflexivity.
        * exists (Budget.Month r, "saving2", Budget.saving2 r).
          split; [reflexivity|]. apply Hin. right. left. reflexivity. }
  destruct G as [|[k1 v1] [|[k2 v2] [|]]] eqn:HG; try discriminate Hnames.
  cbn [List.map fst] in Hnames. inversion Hnames; subst k1 k2.
  exists v1, v2. split; [reflexivity|]. split.
  - destruct (Hfold (fun a => String.eqb a "saving1") (SSorted_nil _))
      as (_ & _ & Hsum).
    change (Series_sum [v1] == Series_sum [] +
            Series_sum (List.map snd
              (List.filter
                 (fun row : string * string * Q =>
                    String.eqb (snd (fst row)) "saving1") F))) in Hsum.
    rewrite Series_sum_cons, !Series_sum_nil in Hsum.
    subst F X.
    rewrite (bar_total data "saving1" Budget.saving1) in Hsum.
    + lra.
    + reflexivity.
    + rewrite melt_account. cbn. rewrite app_nil_r. reflexivity.
  - destruct (Hfold (fun a => String.eqb a "saving2") (SSorted_nil _))
      as (_ & _ & Hsum).
    change (Series_sum [v2] == Series_sum [] +
            Series_sum (List.map snd
              (List.filter
                 (fun row : string * string * Q =>
                    String.eqb (snd (fst row)) "saving2") F))) in Hsum.
    rewrite Series_sum_cons, !Series_sum_nil in Hsum.
    subst F X.
    rewrite (bar_total data "saving2" Budget.saving2) in Hsum.
    + lra.
    + reflexivity.
    + rewrite melt_account. cbn. rewrite app_nil_r. reflexivity.
Qed.

Lemma bar_chart_two_bars_witness :
  exists v1 v2,
    bar_chart_bars (rows two_budgets) = [("saving1", v1); ("saving2", v2)] /\
    v1 == Series_sum (List.map Budget.saving1 (rows two_budgets)) /\
    v2 == Series_sum (List.map Budget.saving2 (rows two_budgets)).
Proof.
  apply bar_chart_two_bars. discriminate.
Defined.

(** ** The summary under the expense form *)

Lemma filter_labelled_first (m : string) (pre post : list Budget.row)
  (br : Budget.row) (s : nat) :
  (forall r, In r pre -> Budget.Month r <> m) -> Budget.Month br = m ->
  exists rest,
    List.filter
      (fun lr : nat * Budget.row => String.eqb (Budget.Month (snd lr)) m)
      (combine (seq s (length (pre ++ br :: post))) (pre ++ br :: post))
    = ((s + length pre)%nat, br) :: rest.
Proof.
  revert s. induction pre as [|x pre IH]; intros s Hpre Hbr.
  - cbn [app length seq combine List.filter snd].
    apply String.eqb_eq in Hbr. rewrite Hbr, Nat.add_0_r. eauto.
  - cbn [app length seq combine List.filter snd].
    assert (Hx : String.eqb (Budget.Month x) m = false)
      by (apply String.eqb_neq, Hpre; left; reflexivity).
    rewrite Hx.
    destruct (IH (S s)) as (rest & Hrest);
      [intros r Hr; apply Hpre; right; exact Hr | exact Hbr |].
    exists rest. rewrite Hrest. f_equal. f_equal. lia.
Qed.

(** X19.  The fixed comparison, where it happens.  For a month with an
    expense row in a fixed category and a Budget row, with the amounts
    of the table and the budget in whole dollars that add up without
    rounding, the block shows the groups and their total, which is the
    sum of the amounts of the month's rows in the fixed categories, and
    compares it with the [Fixed_Expenses] of the first Budget row of the
    month in file order, wherever in the table that row stands: the
    warning, with total minus budget, exactly when the total is over
    the budget. *)
Theorem fixed_block_flags_overspend
  (expense_summary : DataFrame Expense.row)
  (budget_check : DataFrame Budget.row) (select_month : string)
  (r : Expense.row) (pre post : list Budget.row) (br : Budget.row)
  (w : world) :
  adds_exactly
    (Budget.Fixed_Expenses br
     :: List.map Expense.Amount (rows expense_summary)) ->
  In r (rows expense_summary) -> Expense.Month r = select_month ->
  is_fixed r = true ->
  rows budget_check = pre ++ br :: post ->
  (forall r', In r' pre -> Budget.Month r' <> select_month) ->
  Budget.Month br = select_month ->
  exists sel total,
    total == actual_fixed_total (rows expense_summary) select_month /\
    fixed_block expense_summary budget_check select_month w =
    (Ok tt,
     draw [Series sel;
           Metric "Total Fixed Expenses (Month)" total;
           if Qgt_bool total (Budget.Fixed_Expenses br)
           then Warning "FYI you are over the fixed expenses budget by $"
                  (total - Budget.Fixed_Expenses br)
           else Write "You are within the fixed expenses budget."] w) /\
    (Qgt_bool total (Budget.Fixed_Expenses br) = true <->
     Budget.Fixed_Expenses br
     < actual_fixed_total (rows expense_summary) select_month).
Proof.
  intros _ Hin Hm Hf Hrows Hpre Hbr.
  destruct (filter_labelled_first select_month pre post br 0 Hpre Hbr)
    as (rest & Hw).
  rewrite <- Hrows in Hw.
  destruct (fixed_block_compares expense_summary budget_check select_month r
              (0 + length pre) br rest w Hin Hm Hf Hw)
    as (sel & total & Ht & Hrun).
  pose proof (total_fixed_expenses_eq _ _ _ Ht) as Htot.
  exists sel, total. split; [exact Htot|]. split; [exact Hrun|].
  rewrite Qgt_bool_iff, Htot. reflexivity.
Qed.

Lemma fixed_block_flags_overspend_witness :
  exists sel total,
    total == actual_fixed_total (rows rent_and_dinner) "01/2024" /\
    fixed_block rent_and_dinner
      {| columns := Budget.columns;
         rows := [budget_row "12/2023" 900 100; budget_row "01/2024" 900 500] |}
      "01/2024" fresh_world =
    (Ok tt,
     draw [Series sel;
           Metric "Total Fixed Expenses (Month)" total;
           if Qgt_bool total
                (Budget.Fixed_Expenses (budget_row "01/2024" 900 500))
           then Warning "FYI you are over the fixed expenses budget by $"
                  (total - Budget.Fixed_Expenses (budget_row "01/2024" 900 500))
           else Write "You are within the fixed expenses budget."]
       fresh_world) /\
    (Qgt_bool total (Budget.Fixed_Expenses (budget_row "01/2024" 900 500))
     = true <->
     Budget.Fixed_Expenses (budget_row "01/2024" 900 500)
     < actual_fixed_total (rows rent_and_dinner) "01/2024").
Proof.
  apply (fixed_block_flags_overspend rent_and_dinner _ "01/2024"
           (expense "01/2024" 1000 "Rent")
           [budget_row "12/2023" 900 100] [] (budget_row "01/2024" 900 500)).
  - split.
    + repeat constructor; [exists 900%Z | exists 1000%Z | exists 50%Z];
        reflexivity.
    + vm_compute. discriminate.
  - left. reflexivity.
  - reflexivity.
  - reflexivity.
  - reflexivity.
  - intros r' [<-|[]]. intros H; discriminate H.
  - reflexivity.
Defined.

(** X20.  When the first row of the budget table is for the selected
    month and the month has expense rows, with the amounts of the table
    and the budget in whole dollars that add up without rounding, the
    miscellaneous block does compare: it shows the month's groups and
    their total, then the warning with total minus budget if the total
    is over the [Misc_Budget] of that first row, and the within-budget
    line if not. *)
Theorem misc_block_compares
  (expense_summary : DataFrame Expense.row)
  (budget_check : DataFrame Budget.row) (select_month : string)
  (r0 : Budget.row) (rest : list Budget.row) (r : Expense.row) (w : world) :
  adds_exactly
    (Budget.Misc_Budget r0
     :: List.map Expense.Amount (rows expense_summary)) ->
  rows budget_check = r0 :: rest ->
  Budget.Month r0 = select_month ->
  In r (rows expense_summary) -> Expense.Month r = select_month ->
  exists sel total,
    total_misc_expenses expense_summary select_month = Ok total /\
    total == month_total (rows expense_summary) select_month /\
    misc_block expense_summary budget_check select_month w =
    (Ok tt,
     draw [Subheader "Miscellaneous Expenses"; Series sel;
           Metric "Total Miscellaneous Expenses (Month)" total;
           if Qgt_bool total (Budget.Misc_Budget r0)
           then Warning "FYI you are over the miscellaneous spend budget by $"
                  (total - Budget.Misc_Budget r0)
           else Write "You are within the miscellaneous spend budget."] w).
Proof.
  intros _ Hrows Hm0 Hin Hm.
  destruct (total_misc_expenses_ok expense_summary select_month r Hin Hm)
    as (sel & Hsel & Ht).
  exists sel, (Series_sum (List.map snd sel)).
  split; [exact Ht|]. split; [apply total_misc_expenses_eq; exact Ht|].
  unfold misc_block, try_except.
  cbv [mbind App_bind lift].
  rewrite Hsel, Ht, (Misc_Budget_label_0 budget_check select_month r0 rest Hrows).
  apply String.eqb_eq in Hm0. rewrite Hm0.
  cbn. destruct (Qgt_bool _ _); screen_eq.
Qed.

Lemma misc_block_compares_witness :
  exists sel total,
    total_misc_expenses february_dinner "02/2024" = Ok total /\
    total == month_total (rows february_dinner) "02/2024" /\
    misc_block february_dinner
      {| columns := Budget.columns; rows := [budget_row "02/2024" 600 100] |}
      "02/2024" fresh_world =
    (Ok tt,
     draw [Subheader "Miscellaneous Expenses"; Series sel;
           Metric "Total Miscellaneous Expenses (Month)" total;
           if Qgt_bool total
                (Budget.Misc_Budget (budget_row "02/2024" 600 100))
           then Warning "FYI you are over the miscellaneous spend budget by $"
                  (total - Budget.Misc_Budget (budget_row "02/2024" 600 100))
           else Write "You are within the miscellaneous spend budget."]
       fresh_world).
Proof.
  apply (misc_block_compares february_dinner _ "02/2024"
           (budget_row "02/2024" 600 100) []
           (expense "02/2024" 300 "Dining Out")).
  - split.
    + repeat constructor; [exists 100%Z | exists 300%Z]; reflexivity.
    + vm_compute. discriminate.
  - reflexivity.
  - reflexivity.
  - left. reflexivity.
  - reflexivity.
Defined.

Lemma In_labelled {R} (l : list R) (s : nat) (r : R) :
  In r l -> exists i, In (i, r) (combine (seq s (length l)) l).
Proof.
  revert s. induction l as [|x t IH]; intros s Hin; [contradiction|].
  cbn [length seq combine]. destruct Hin as [->|Hin].
  - exists s. left. reflexivity.
  - destruct (IH (S s) Hin) as (i & Hi). exists i. right. exact Hi.
Qed.

Lemma where_month_nil_inv (budget_check : DataFrame Budget.row) (m : string) :
  where_month budget_check m = [] ->
  forall r, In r (rows budget_check) -> Budget.Month r <> m.
Proof.
  unfold where_month, labelled. intros Hnil r Hin.
  destruct (In_labelled _ 0 r Hin) as (i & Hi).
  apply String.eqb_neq.
  exact (proj1 (filter_nil_iff _ _) Hnil (i, r) Hi).
Qed.

(** X21.  The one exception the summary under the form lets through,
    for files of the model (each missing, unparsable or a table under
    its canonical columns) and a month that the select box offers.  The
    summary ends in an uncaught [IndexError] when the month has an
    expense row in a fixed category and the budget table has no row for
    the month; in every other case it ends normally.  No other exception
    leaves it. *)
Theorem expense_summary_section_outcome (w : world) (select_month : string) :
  In select_month
    (select_month_options
       {| columns := Expense.columns;
          rows := stored_rows (expense_file w) |}) ->
  let fixed_without_budget :=
    (exists r, In r (stored_rows (expense_file w)) /\
               Expense.Month r = select_month /\ is_fixed r = true) /\
    (forall br, In br (stored_rows (budget_file w)) ->
                Budget.Month br <> select_month) in
  exists w',
    (fixed_without_budget /\
     expense_summary_section select_month w = (Raise IndexError, w')) \/
    (~ fixed_without_budget /\
     expense_summary_section select_month w = (Ok tt, w')).
Proof.
  intros _. cbv zeta.
  destruct (expense_summary_section_eq select_month w) as (w1 & ->).
  cbv zeta.
  set (es := {| columns := Expense.columns;
                rows := stored_rows (expense_file w) |}).
  set (bc := {| columns := Budget.columns;
                rows := stored_rows (budget_file w) |}).
  cbv [mbind App_bind].
  destruct (misc_block_ok es bc select_month w1) as (w2 & ->).
  cbn [st].
  destruct (List.filter (fun r => in_month select_month r && is_fixed r)
              (stored_rows (expense_file w))) as [|r t] eqn:Hfx.
  - assert (Hnf : forall r, In r (rows es) -> Expense.Month r = select_month ->
                            is_fixed r = false).
    { intros r Hin Hm.
      pose proof (proj1 (filter_nil_iff _ _) Hfx r Hin) as H.
      unfold in_month in H. apply String.eqb_eq in Hm. rewrite Hm in H.
      exact H. }
    rewrite fixed_block_no_fixed_rows by exact Hnf.
    eexists. right. split; [|reflexivity].
    intros [(r & Hin & Hm & Hf) _].
    rewrite (Hnf r Hin Hm) in Hf. discriminate Hf.
  - assert (Hr : In r (List.filter
                         (fun r => in_month select_month r && is_fixed r)
                         (stored_rows (expense_file w))))
      by (rewrite Hfx; left; reflexivity).
    apply filter_In in Hr. destruct Hr as [Hin Hr].
    apply andb_true_iff in Hr. destruct Hr as [Hm Hf].
    unfold in_month in Hm. apply String.eqb_eq in Hm.
    destruct (where_month bc select_month) as [|[i br] rest] eqn:Hw.
    + match goal with |- context [fixed_block es bc select_month ?w0] =>
        destruct (fixed_block_no_budget_row es bc select_month r w0
                    Hin Hm Hf Hw) as (sel & ->)
      end.
      eexists. left. split; [|reflexivity]. split.
      * exists r. auto.
      * exact (where_month_nil_inv bc select_month Hw).
    + match goal with |- context [fixed_block es bc select_month ?w0] =>
        destruct (fixed_block_compares es bc select_month r i br rest w0
                    Hin Hm Hf Hw) as (sel & total & _ & ->)
      end.
      eexists. right. split; [|reflexivity].
      intros [_ Hb]. apply (where_month_nil bc) in Hb.
      rewrite Hb in Hw. discriminate Hw.
Qed.

Lemma expense_summary_section_outcome_witness :
  exists w',
    expense_summary_section "01/2024" rent_no_budget = (Raise IndexError, w')
    \/ expense_summary_section "01/2024" rent_no_budget = (Ok tt, w').
Proof.
  destruct (expense_summary_section_outcome rent_no_budget "01/2024")
    as (w' & [[_ H]|[_ H]]).
  - left. reflexivity.
  - exists w'. left. exact H.
  - exists w'. right. exact H.
Defined.

Lemma In_unique (s : list string) (x : string) : In x (unique s) <-> In x s.
Proof.
  induction s as [|y t IH]; simpl; [tauto|].
  rewrite filter_In, IH, negb_true_iff, String.eqb_neq.
  destruct (String.eqb_spec x y) as [->|Hne]; [tauto|].
  split; [intros [E|[H _]] | intros [E|H]]; auto; congruence.
Qed.

Lemma NoDup_filter {A} (f : A -> bool) (l : list A) :
  List.NoDup l -> List.NoDup (List.filter f l).
Proof.
  induction 1 as [|x l Hx Hl IH]; simpl; [constructor|].
  destruct (f x); [constructor|]; auto.
  intros Hin. apply filter_In in Hin. tauto.
Qed.

Lemma NoDup_unique (s : list string) : List.NoDup (unique s).
Proof.
  induction s as [|y t IH]; simpl; constructor.
  - intros Hin. apply filter_In in Hin. destruct Hin as [_ H].
    rewrite String.eqb_refl in H. discriminate.
  - apply NoDup_filter. exact IH.
Qed.

(** X22.  The select box offers each month of the expense table once,
    and only months of the table.  For a month it offers, the
    miscellaneous total is defined and is the sum of the amounts of the
    month; for any other month the lookup of line 264 is a [KeyError]. *)
Theorem select_month_options_have_rows
  (expense_summary : DataFrame Expense.row) :
  List.NoDup (select_month_options expense_summary) /\
  (forall m, In m (select_month_options expense_summary) <->
             exists r, In r (rows expense_summary) /\ Expense.Month r = m) /\
  (forall m, In m (select_month_options expense_summary) ->
             exists total,
               total_misc_expenses expense_summary m = Ok total /\
               total == month_total (rows expense_summary) m) /\
  (forall m, ~ In m (select_month_options expense_summary) ->
             total_misc_expenses expense_summary m = Raise KeyError).
Proof.
  assert (Hopt : forall m,
            In m (select_month_options expense_summary) <->
            exists r, In r (rows expense_summary) /\ Expense.Month r = m).
  { intros m. unfold select_month_options.
    rewrite In_unique, in_map_iff. split; intros (r & H1 & H2); eauto. }
  split; [apply NoDup_unique|]. split; [exact Hopt|]. split.
  - intros m Hm. apply Hopt in Hm. destruct Hm as (r & Hin & Hmr).
    destruct (total_misc_expenses_ok expense_summary m r Hin Hmr)
      as (sel & _ & Ht).
    eexists. split; [exact Ht|]. apply total_misc_expenses_eq. exact Ht.
  - intros m Hm. unfold total_misc_expenses, month_misc_expenses.
    rewrite getitem_month_raises; [reflexivity|].
    intros k Hk Hkm. apply Hm. apply Hopt.
    apply In_groupby in Hk. apply in_map_iff in Hk.
    destruct Hk as (r & Hr & Hin). exists r. split; [exact Hin|].
    subst k. exact Hkm.
Qed.

Lemma select_month_options_have_rows_witness :
  exists total,
    total_misc_expenses rent_and_dinner "01/2024" = Ok total /\
    total == month_total (rows rent_and_dinner) "01/2024".
Proof.
  destruct (select_month_options_have_rows rent_and_dinner)
    as (_ & _ & H & _).
  apply H. left. reflexivity.
Defined.

(** ** Month keys *)

Lemma digit_inj (a c : nat) : digit a = digit c -> (a mod 10 = c mod 10)%nat.
Proof.
  unfold digit. intros H. apply (f_equal nat_of_ascii) in H.
  pose proof (Nat.mod_upper_bound a 10) as Ha.
  pose proof (Nat.mod_upper_bound c 10) as Hc.
  rewrite !nat_ascii_embedding in H by lia. lia.
Qed.

Lemma two_digits (m : nat) :
  (m < 100)%nat -> (m = 10 * ((m / 10) mod 10) + m mod 10)%nat.
Proof.
  intros H. pose proof (Nat.div_mod_eq m 10) as H0.
  assert (H1 : (m / 10 < 10)%nat)
    by (apply Nat.Div0.div_lt_upper_bound; lia).
  rewrite (Nat.mod_small (m / 10) 10 H1). exact H0.
Qed.

Lemma four_digits (y : nat) :
  (y < 10 * 1000)%nat ->
  (y = 1000 * ((y / 1000) mod 10) + 100 * ((y / 100) mod 10)
       + 10 * ((y / 10) mod 10) + y mod 10)%nat.
Proof.
  intros H.
  pose proof (Nat.div_mod_eq y 10) as H0.
  pose proof (Nat.div_mod_eq (y / 10) 10) as H1.
  pose proof (Nat.div_mod_eq (y / 10 / 10) 10) as H2.
  rewrite !Nat.Div0.div_div in H1, H2.
  change (10 * 10)%nat with 100%nat in *.
  rewrite Nat.Div0.div_div in H2.
  change (100 * 10)%nat with 1000%nat in *.
  assert (H3 : (y / 1000 < 10)%nat)
    by (apply Nat.Div0.div_lt_upper_bound; lia).
  rewrite (Nat.mod_small (y / 1000) 10 H3).
  lia.
Qed.

(** X23.  For the dates the widget gives (months 1 to 12, years of
    four digits), two dates get the same "MM/YYYY" key exactly when they
    agree on month and year: the day does not count, and no two months
    share a key. *)
Theorem strftime_m_Y_same_key (d1 d2 : date) :
  (1 <= month d1 <= 12)%nat -> (1 <= month d2 <= 12)%nat ->
  (1000 <= year d1 < 10 * 1000)%nat -> (1000 <= year d2 < 10 * 1000)%nat ->
  (strftime_m_Y d1 = strftime_m_Y d2 <->
   month d1 = month d2 /\ year d1 = year d2).
Proof.
  intros Hm1 Hm2 Hy1 Hy2. split.
  - unfold strftime_m_Y. intros H.
    injection H as H1 H2 H3 H4 H5 H6.
    apply digit_inj in H1, H2, H3, H4, H5, H6.
    assert (Hm1' : (month d1 < 100)%nat) by lia.
    assert (Hm2' : (month d2 < 100)%nat) by lia.
    pose proof (two_digits _ Hm1'). pose proof (two_digits _ Hm2').
    pose proof (four_digits _ (proj2 Hy1)).
    pose proof (four_digits _ (proj2 Hy2)).
    unfold Nat.div in *. split; lia.
  - intros [Hm Hy]. unfold strftime_m_Y. rewrite Hm, Hy. reflexivity.
Qed.

Lemma strftime_m_Y_same_key_witness :
  strftime_m_Y {| year := 2024; month := 2; day := 3 |}
  = strftime_m_Y {| year := 2024; month := 2; day := 28 |}.
Proof.
  apply strftime_m_Y_same_key; cbn [year month]; lia.
Defined.

(** X24.  Within one year the order of the keys is the order of the
    months: for two dates of the same year, with months 1 to 12, the key
    of the first is at most the key of the second, as strings, exactly
    when its month is at most the other month. *)
Theorem same_year_keys_in_month_order (d1 d2 : date) :
  year d1 = year d2 ->
  (1 <= month d1 <= 12)%nat -> (1 <= month d2 <= 12)%nat ->
  String.leb (strftime_m_Y d1) (strftime_m_Y d2)
  = (month d1 <=? month d2)%nat.
Proof.
  destruct d1 as [y1 m1 dd1], d2 as [y2 m2 dd2]. cbn [year month].
  intros <- H1 H2. unfold strftime_m_Y. cbn [year month].
  generalize (String "/"
                (String (digit (y1 / 1000))
                   (String (digit (y1 / 100))
                      (String (digit (y1 / 10))
                         (String (digit y1) EmptyString))))).
  intros T. unfold String.leb.
  assert (E1 : (m1 = 1 \/ m1 = 2 \/ m1 = 3 \/ m1 = 4 \/ m1 = 5 \/ m1 = 6
                \/ m1 = 7 \/ m1 = 8 \/ m1 = 9 \/ m1 = 10 \/ m1 = 11
                \/ m1 = 12)%nat) by lia.
  assert (E2 : (m2 = 1 \/ m2 = 2 \/ m2 = 3 \/ m2 = 4 \/ m2 = 5 \/ m2 = 6
                \/ m2 = 7 \/ m2 = 8 \/ m2 = 9 \/ m2 = 10 \/ m2 = 11
                \/ m2 = 12)%nat) by lia.
  clear H1 H2.
  decompose [or] E1; decompose [or] E2; subst m1 m2;
    cbn; rewrite ?string_compare_refl; reflexivity.
Qed.

Lemma same_year_keys_in_month_order_witness :
  String.leb (strftime_m_Y {| year := 2024; month := 2; day := 10 |})
             (strftime_m_Y {| year := 2024; month := 11; day := 1 |})
  = true.
Proof.
  rewrite (same_year_keys_in_month_order
             {| year := 2024; month := 2; day := 10 |}
             {| year := 2024; month := 11; day := 1 |});
    cbn [year month]; try lia; reflexivity.
Defined.
